(** * LearnOpenGL "hello triangle" bootstrap: a shallow embedding of [main.cpp]

    The program is one linear routine ([main]) plus two short functions
    ([processInput], [framebuffer_size_callback]).  Everything it does is a
    call into GLFW, GLAD or OpenGL, or a write to [std::cout].  The embedding
    therefore runs the program in a small state monad whose state records

    - the API calls issued so far, with their arguments, in program order;
    - the text written to standard output;
    - the part of the window object the program can observe (close flag,
      cached key states, registered framebuffer-size callback);

    against an environment [Env] that supplies what the outside world answers
    (return values of the libraries, the driver's diagnostics, and the events
    the windowing layer delivers at each poll).  The render loop may run for
    ever, so the loop takes a bound on the number of times its condition is
    evaluated; a run that exhausts the bound is reported as still running. *)

From Stdlib Require Import ZArith List String Ascii Bool Lia.
From Stdlib Require Import Floats.SpecFloat.
Import ListNotations.

Local Open Scope Z_scope.

(** ** Single-precision values

    [float] in the source is IEEE-754 binary32.  A literal such as [0.2f]
    denotes the binary32 value nearest to the decimal it spells; it is
    obtained here by one correctly rounded division of two exactly
    representable integers. *)

Module F32.

Definition prec : Z := 24.
Definition emax : Z := 128.

Definition of_Z (n : Z) : spec_float := binary_normalize prec emax n 0 false.

(** [lit d k] is the literal whose digits, read without the decimal point,
    are [d] and which has [k] digits after the point: [0.2f] is [lit 2 1]. *)
Definition lit (digits : Z) (frac : nat) : spec_float :=
  SFdiv prec emax (of_Z digits) (of_Z (10 ^ Z.of_nat frac)).

(** Unary minus. *)
Definition neg (x : spec_float) : spec_float := SFopp x.

(** [sizeof(float)]. *)
Definition sizeof : Z := 4.

Definition sign_bit (s : bool) : Z := if s then Z.shiftl 1 31 else 0.

(** The binary32 interchange encoding as a 32-bit word. *)
Definition bits (x : spec_float) : Z :=
  match x with
  | S754_zero s => sign_bit s
  | S754_infinity s => Z.lor (sign_bit s) 0x7F800000
  | S754_nan => 0x7FC00000
  | S754_finite s m e =>
      if Z.pos m <? Z.shiftl 1 23
      then Z.lor (sign_bit s) (Z.pos m)
      else Z.lor (sign_bit s)
             (Z.lor (Z.shiftl (e + 150) 23) (Z.pos m - Z.shiftl 1 23))
  end.

(** The four bytes of a value as they lie in memory on the little-endian
    hosts desktop OpenGL 4.6 runs on. *)
Definition bytes (x : spec_float) : list Z :=
  let w := bits x in
  [Z.land w 255; Z.land (Z.shiftr w 8) 255;
   Z.land (Z.shiftr w 16) 255; Z.land (Z.shiftr w 24) 255].

(** The exact value of a finite float, as a fraction [(num, den)] in
    lowest terms. *)
Definition value (x : spec_float) : option (Z * Z) :=
  match x with
  | S754_zero _ => Some (0, 1)
  | S754_finite s m e =>
      let n := if s then Z.neg m else Z.pos m in
      let (num, den) := if 0 <=? e then (n * 2 ^ e, 1) else (n, 2 ^ (- e)) in
      let g := Z.gcd num den in
      Some (num / g, den / g)
  | _ => None
  end.

(** The weight [(num, den)] of the last place of a finite float. *)
Definition ulp (x : spec_float) : option (Z * Z) :=
  match x with
  | S754_finite _ _ e => Some (if 0 <=? e then (2 ^ e, 1) else (1, 2 ^ (- e)))
  | _ => None
  end.

(** [x] lies within half a unit in the last place of [num / den]
    ([den > 0]): it is a binary32 value nearest to that number. *)
Definition nearest_to (num den : Z) (x : spec_float) : bool :=
  match value x, ulp x with
  | Some (vn, vd), Some (un, ud) =>
      (0 <? den) && (2 * ud * Z.abs (vn * den - num * vd) <=? un * vd * den)
  | Some (vn, vd), None => (0 <? den) && (vn * den =? num * vd)
  | _, _ => false
  end.

End F32.

(** ** C strings *)

Definition NUL : string := String "000"%char EmptyString.
Definition LF  : string := String "010"%char EmptyString.
Definition TAB : string := String "009"%char EmptyString.

(** The characters a [const char*] denotes: everything before the first
    NUL. *)
Fixpoint c_str (s : string) : string :=
  match s with
  | EmptyString => EmptyString
  | String c r => if Ascii.eqb c "000"%char then EmptyString else String c (c_str r)
  end.

(** The first line of a text: everything before the first line feed. *)
Fixpoint first_line (s : string) : string :=
  match s with
  | EmptyString => EmptyString
  | String c r => if Ascii.eqb c "010"%char then EmptyString else String c (first_line r)
  end.

(** ** Constants of the library headers

    [glad/glad.h] and [GLFW/glfw3.h] are third-party headers; the values
    below are the ones they define. *)

Definition NULL : Z := 0.

Definition GLFW_CONTEXT_VERSION_MAJOR : Z := 0x00022002.
Definition GLFW_CONTEXT_VERSION_MINOR : Z := 0x00022003.
Definition GLFW_OPENGL_PROFILE        : Z := 0x00022008.
Definition GLFW_OPENGL_CORE_PROFILE   : Z := 0x00032001.
Definition GLFW_KEY_ESCAPE            : Z := 256.
Definition GLFW_RELEASE               : Z := 0.
Definition GLFW_PRESS                 : Z := 1.
Definition GLFW_FALSE                 : Z := 0.
Definition GLFW_TRUE                  : Z := 1.

Definition GL_ARRAY_BUFFER     : Z := 0x8892.
Definition GL_STREAM_DRAW      : Z := 0x88E0.
Definition GL_STATIC_DRAW      : Z := 0x88E4.
Definition GL_DYNAMIC_DRAW     : Z := 0x88E8.
Definition GL_FRAGMENT_SHADER  : Z := 0x8B30.
Definition GL_VERTEX_SHADER    : Z := 0x8B31.
Definition GL_COMPILE_STATUS   : Z := 0x8B81.
Definition GL_LINK_STATUS      : Z := 0x8B82.
Definition GL_COLOR_BUFFER_BIT : Z := 0x00004000.

(** ** Function pointers handed to the libraries *)

(** Values of type [GLFWframebuffersizefun] the program owns. *)
Inductive GLFWframebuffersizefun : Set :=
| framebuffer_size_callback_addr.

(** Values of type [GLADloadproc] the program passes. *)
Inductive GLADloadproc : Set :=
| glfwGetProcAddress_addr.

(** ** The API surface

    One constructor per library entry point, carrying the arguments of the
    call.  Output parameters ([&VBO], [&success], [infoLog]) are results and
    are not part of the record of the call.  The last group lists entry
    points the program has no call to; they are here so that their absence
    from a run can be stated. *)

Module Api.

Inductive Call : Type :=
(* GLFW *)
| glfwInit
| glfwTerminate
| glfwWindowHint (hint value : Z)
| glfwCreateWindow (width height : Z) (title : string) (monitor share : Z)
| glfwMakeContextCurrent (window : Z)
| glfwSetFramebufferSizeCallback (window : Z) (callback : GLFWframebuffersizefun)
| glfwWindowShouldClose (window : Z)
| glfwSetWindowShouldClose (window : Z) (value : Z)
| glfwGetKey (window key : Z)
| glfwSwapBuffers (window : Z)
| glfwPollEvents
(* GLAD *)
| gladLoadGLLoader (load : GLADloadproc)
(* OpenGL: buffers *)
| glGenBuffers (n : Z)
| glBindBuffer (target buffer : Z)
| glBufferData (target size : Z) (data : list spec_float) (usage : Z)
(* OpenGL: shaders and programs *)
| glCreateShader (type : Z)
| glShaderSource (shader count : Z) (strings : list string) (length : Z)
| glCompileShader (shader : Z)
| glGetShaderiv (shader pname : Z)
| glGetShaderInfoLog (shader bufSize : Z) (length : Z)
| glCreateProgram
| glAttachShader (program shader : Z)
| glLinkProgram (program : Z)
(* OpenGL: framebuffer *)
| glViewport (x y width height : Z)
| glClearColor (red green blue alpha : spec_float)
| glClear (mask : Z)
(* entry points without a call site in the program *)
| glGetProgramiv (program pname : Z)
| glGetProgramInfoLog (program bufSize : Z) (length : Z)
| glUseProgram (program : Z)
| glDrawArrays (mode first count : Z)
| glDrawElements (mode count type indices : Z)
| glBufferSubData (target offset size : Z) (data : list spec_float).

End Api.

(** ** The outside world *)

(** What the windowing layer can deliver during one [glfwPollEvents]. *)
Inductive Event : Type :=
| EvKey (key : Z) (pressed : bool)
| EvFramebufferSize (width height : Z)
| EvClose.

(** The answers of the libraries.  Handles are whatever the library hands
    out; statuses and logs are the driver's, per object name.  A query on a
    name that is no shader object is an OpenGL error and stores nothing:
    [is_shader] says which names are shader objects.  [stale_success] and
    [stale_infoLog] are what the locals [success] and [infoLog] of [main],
    which are declared without an initialiser, happen to hold ([infoLog] as
    the text found there up to the first NUL, wherever that is). *)
Record Env : Type := {
  glfwInit_result         : Z;
  glfwCreateWindow_result : Z;
  gladLoadGLLoader_result : Z;
  glGenBuffers_name       : Z;
  glCreateShader_name     : Z -> Z;
  glCreateProgram_name    : Z;
  is_shader               : Z -> bool;
  shader_iv               : Z -> Z -> Z;
  shader_info_log         : Z -> string;
  program_iv              : Z -> Z -> Z;
  stale_success           : Z;
  stale_infoLog           : string;
  events                  : nat -> list Event
}.

(** The window object, as far as the program can observe it.  The program
    creates one window, so one record is enough. *)
Record Window : Type := {
  handle                  : Z;
  shouldClose             : bool;
  keysDown                : list Z;
  framebufferSizeCallback : option GLFWframebuffersizefun
}.

Record World : Type := {
  calls  : list Api.Call;   (* oldest first *)
  stdout : string;
  win    : Window;
  polled : nat          (* number of event polls so far *)
}.

Definition no_window : Window :=
  {| handle := NULL; shouldClose := false; keysDown := [];
     framebufferSizeCallback := None |}.

Definition init : World :=
  {| calls := []; stdout := EmptyString; win := no_window; polled := 0%nat |}.

(** ** The execution monad

    A computation transforms the world and yields a value, or yields
    nothing when the bound on the render loop ran out; the world it returns
    then holds the run up to that point. *)

Definition M (A : Type) : Type := World -> option A * World.

Definition ret {A : Type} (a : A) : M A := fun w => (Some a, w).

Definition bind {A B : Type} (m : M A) (k : A -> M B) : M B :=
  fun w =>
    match m w with
    | (Some a, w') => k a w'
    | (None, w') => (None, w')
    end.

Definition still_running {A : Type} : M A := fun w => (None, w).

Declare Scope prog_scope.
Delimit Scope prog_scope with prog.
Notation "x <- m ;; k" := (bind m (fun x => k))
  (at level 100, m at next level, right associativity) : prog_scope.
Notation "m ;; k" := (bind m (fun _ => k))
  (at level 100, right associativity) : prog_scope.
Local Open Scope prog_scope.

Definition result {A : Type} (r : option A * World) : option A := fst r.
Definition world  {A : Type} (r : option A * World) : World := snd r.

(** State accessors. *)

Definition call (c : Api.Call) : M unit :=
  fun w => (Some tt, {| calls := (calls w ++ [c])%list; stdout := stdout w;
                        win := win w; polled := polled w |}).

Definition print (s : string) : M unit :=
  fun w => (Some tt, {| calls := calls w; stdout := (stdout w ++ s)%string;
                        win := win w; polled := polled w |}).

Definition get_win : M Window := fun w => (Some (win w), w).

Definition put_win (x : Window) : M unit :=
  fun w => (Some tt, {| calls := calls w; stdout := stdout w;
                        win := x; polled := polled w |}).

Definition next_poll : M nat :=
  fun w => (Some (polled w), {| calls := calls w; stdout := stdout w;
                                win := win w; polled := S (polled w) |}).

Fixpoint for_each {A : Type} (f : A -> M unit) (l : list A) : M unit :=
  match l with
  | [] => ret tt
  | a :: l' => f a ;; for_each f l'
  end.

(** [std::cout << s] for a [const char*], and [std::cout << std::endl]. *)
Definition cout (s : string) : M unit := print (c_str s).
Definition endl : M unit := print LF.

(** ** The embedded shader sources *)

Definition vertexShaderSource : string :=
  ("#version 460 core" ++ LF ++
   "layout (location=0) in vec3 aPos;" ++ LF ++
   "void main()" ++ LF ++
   "{" ++ LF ++
   TAB ++ "gl_Position = vec4(aPos.x, aPos.y, aPos.z, 1.0);" ++ LF ++
   "}" ++ NUL)%string.

Definition fragmentShaderSource : string :=
  ("#verson 460 core" ++ LF ++
   "out vec4 FragColor;" ++ LF ++
   "void main()" ++ LF ++
   "{" ++ LF ++
   TAB ++ "FragColor = vec4(1.0f, 0.5f, 0.2f, 1.0f);" ++ LF ++
   "}" ++ NUL)%string.

Section Program.

Variable env : Env.

(** ** OpenGL and GLAD entry points

    Each one records the call and returns what the environment answers.
    None of them touches the window object. *)

Definition gladLoadGLLoader (load : GLADloadproc) : M Z :=
  call (Api.gladLoadGLLoader load) ;; ret (gladLoadGLLoader_result env).

(** [glGenBuffers(n, &buffer)] with [n = 1]: the name written to
    [buffer]. *)
Definition glGenBuffers (n : Z) : M Z :=
  call (Api.glGenBuffers n) ;; ret (glGenBuffers_name env).

Definition glBindBuffer (target buffer : Z) : M unit :=
  call (Api.glBindBuffer target buffer).

Definition glBufferData (target size : Z) (data : list spec_float) (usage : Z)
  : M unit :=
  call (Api.glBufferData target size data usage).

Definition glCreateShader (type : Z) : M Z :=
  call (Api.glCreateShader type) ;; ret (glCreateShader_name env type).

Definition glShaderSource (shader count : Z) (strings : list string) (length : Z)
  : M unit :=
  call (Api.glShaderSource shader count strings length).

Definition glCompileShader (shader : Z) : M unit :=
  call (Api.glCompileShader shader).

(** [glGetShaderiv(shader, pname, &params)], given what [params] held
    before the call: what it holds after.  The driver stores the value
    asked for when [shader] is a shader object; otherwise the call is an
    error and [params] keeps what it held. *)
Definition glGetShaderiv (shader pname params : Z) : M Z :=
  call (Api.glGetShaderiv shader pname) ;;
  ret (if is_shader env shader then shader_iv env shader pname else params).

(** [glGetShaderInfoLog(shader, bufSize, length, infoLog)], given what
    [infoLog] held before the call: what it holds after.  For a shader
    object that is the driver's log cut to [bufSize - 1] characters, so
    that the terminating NUL fits; otherwise the call is an error and
    [infoLog] keeps what it held. *)
Definition glGetShaderInfoLog (shader bufSize length : Z) (infoLog : string)
  : M string :=
  call (Api.glGetShaderInfoLog shader bufSize length) ;;
  ret (if is_shader env shader
       then substring 0 (Z.to_nat (bufSize - 1)) (shader_info_log env shader)
       else infoLog).

Definition glCreateProgram : M Z :=
  call Api.glCreateProgram ;; ret (glCreateProgram_name env).

Definition glAttachShader (program shader : Z) : M unit :=
  call (Api.glAttachShader program shader).

Definition glLinkProgram (program : Z) : M unit :=
  call (Api.glLinkProgram program).

Definition glViewport (x y width height : Z) : M unit :=
  call (Api.glViewport x y width height).

Definition glClearColor (red green blue alpha : spec_float) : M unit :=
  call (Api.glClearColor red green blue alpha).

Definition glClear (mask : Z) : M unit :=
  call (Api.glClear mask).

(** ** The resize callback (source lines 172-174) *)

Definition framebuffer_size_callback (window width height : Z) : M unit :=
  glViewport 0 0 width height.

(** Calling through a [GLFWframebuffersizefun]. *)
Definition invoke (f : GLFWframebuffersizefun) (window width height : Z)
  : M unit :=
  match f with
  | framebuffer_size_callback_addr =>
      framebuffer_size_callback window width height
  end.

(** ** GLFW entry points *)

Definition glfwInit : M Z :=
  call Api.glfwInit ;; ret (glfwInit_result env).

Definition glfwTerminate : M unit :=
  call Api.glfwTerminate.

Definition glfwWindowHint (hint value : Z) : M unit :=
  call (Api.glfwWindowHint hint value).

(** A window that was created starts with its close flag clear, no key
    down and no callback. *)
Definition glfwCreateWindow (width height : Z) (title : string)
           (monitor share : Z) : M Z :=
  call (Api.glfwCreateWindow width height title monitor share) ;;
  let h := glfwCreateWindow_result env in
  (if h =? NULL then ret tt
   else put_win {| handle := h; shouldClose := false; keysDown := [];
                   framebufferSizeCallback := None |}) ;;
  ret h.

Definition glfwMakeContextCurrent (window : Z) : M unit :=
  call (Api.glfwMakeContextCurrent window).

Definition glfwSetFramebufferSizeCallback (window : Z)
           (callback : GLFWframebuffersizefun) : M unit :=
  call (Api.glfwSetFramebufferSizeCallback window callback) ;;
  x <- get_win ;;
  put_win {| handle := handle x; shouldClose := shouldClose x;
             keysDown := keysDown x;
             framebufferSizeCallback := Some callback |}.

Definition glfwWindowShouldClose (window : Z) : M Z :=
  call (Api.glfwWindowShouldClose window) ;;
  x <- get_win ;;
  ret (if shouldClose x then GLFW_TRUE else GLFW_FALSE).

Definition glfwSetWindowShouldClose (window value : Z) : M unit :=
  call (Api.glfwSetWindowShouldClose window value) ;;
  x <- get_win ;;
  put_win {| handle := handle x; shouldClose := negb (value =? 0);
             keysDown := keysDown x;
             framebufferSizeCallback := framebufferSizeCallback x |}.

Definition glfwGetKey (window key : Z) : M Z :=
  call (Api.glfwGetKey window key) ;;
  x <- get_win ;;
  ret (if existsb (Z.eqb key) (keysDown x) then GLFW_PRESS else GLFW_RELEASE).

Definition glfwSwapBuffers (window : Z) : M unit :=
  call (Api.glfwSwapBuffers window).

(** What the windowing layer does with one event: a key event updates the
    cached key state, a close request raises the close flag, a
    framebuffer-size event is passed to the registered callback. *)
Definition deliver (ev : Event) : M unit :=
  x <- get_win ;;
  match ev with
  | EvKey key pressed =>
      let others := filter (fun k => negb (k =? key)) (keysDown x) in
      put_win {| handle := handle x; shouldClose := shouldClose x;
                 keysDown := if pressed then key :: others else others;
                 framebufferSizeCallback := framebufferSizeCallback x |}
  | EvFramebufferSize width height =>
      match framebufferSizeCallback x with
      | Some f => invoke f (handle x) width height
      | None => ret tt
      end
  | EvClose =>
      put_win {| handle := handle x; shouldClose := true;
                 keysDown := keysDown x;
                 framebufferSizeCallback := framebufferSizeCallback x |}
  end.

(** [glfwPollEvents] drains the events pending at this poll and returns. *)
Definition glfwPollEvents : M unit :=
  call Api.glfwPollEvents ;;
  k <- next_poll ;;
  for_each deliver (events env k).

(** ** [processInput] (source lines 177-181)

    The source passes [true] for the [int] parameter of
    [glfwSetWindowShouldClose]; the call receives 1. *)

Definition processInput (window : Z) : M unit :=
  key <- glfwGetKey window GLFW_KEY_ESCAPE ;;
  if key =? GLFW_PRESS
  then glfwSetWindowShouldClose window 1
  else ret tt.

(** ** [main] (source lines 27-168) *)

(** The array [verticies] of lines 65-69. *)
Definition verticies : list spec_float :=
  [ F32.neg (F32.lit 5 1); F32.neg (F32.lit 5 1); F32.lit 0 1;
    F32.lit 5 1;           F32.neg (F32.lit 5 1); F32.lit 0 1;
    F32.lit 0 1;           F32.lit 5 1;           F32.lit 0 1 ].

(** [sizeof] of an array of [float]. *)
Definition sizeof_floats (a : list spec_float) : Z :=
  F32.sizeof * Z.of_nat (List.length a).

(** One pass through the body of the [while] of lines 141-159. *)
Definition loop_body (window : Z) : M unit :=
  processInput window ;;
  glClearColor (F32.lit 2 1) (F32.lit 3 1) (F32.lit 3 1) (F32.lit 10 1) ;;
  glClear GL_COLOR_BUFFER_BIT ;;
  glfwSwapBuffers window ;;
  glfwPollEvents.

(** The [while] itself; [fuel] bounds how many times its condition is
    evaluated. *)
Fixpoint render_loop (fuel : nat) (window : Z) : M unit :=
  match fuel with
  | O => still_running
  | S fuel' =>
      close <- glfwWindowShouldClose window ;;
      if close =? 0
      then loop_body window ;; render_loop fuel' window
      else ret tt
  end.

Definition main (fuel : nat) : M Z :=
  glfwInit ;;
  glfwWindowHint GLFW_CONTEXT_VERSION_MAJOR 4 ;;
  glfwWindowHint GLFW_CONTEXT_VERSION_MINOR 6 ;;
  glfwWindowHint GLFW_OPENGL_PROFILE GLFW_OPENGL_CORE_PROFILE ;;
  window <- glfwCreateWindow 800 600 "LearnOpenGL" NULL NULL ;;
  if window =? NULL
  then
    cout "Failed to create GLFW window" ;; endl ;;
    glfwTerminate ;;
    ret (-1)
  else
    glfwMakeContextCurrent window ;;
    glfwSetFramebufferSizeCallback window framebuffer_size_callback_addr ;;
    loaded <- gladLoadGLLoader glfwGetProcAddress_addr ;;
    if loaded =? 0
    then
      cout "Failed to initialize GLAD" ;; endl ;;
      ret (-1)
    else
      (* geometry upload *)
      VBO <- glGenBuffers 1 ;;
      glBindBuffer GL_ARRAY_BUFFER VBO ;;
      glBufferData GL_ARRAY_BUFFER (sizeof_floats verticies) verticies
                   GL_STATIC_DRAW ;;
      (* vertex shader *)
      vertexShader <- glCreateShader GL_VERTEX_SHADER ;;
      glShaderSource vertexShader 1 [vertexShaderSource] NULL ;;
      glCompileShader vertexShader ;;
      (* [int success; char infoLog[512];] have no initialiser *)
      let success := stale_success env in
      let infoLog := stale_infoLog env in
      success <- glGetShaderiv vertexShader GL_COMPILE_STATUS success ;;
      (if success =? 0
       then
         infoLog <- glGetShaderInfoLog vertexShader 512 NULL infoLog ;;
         cout ("ERROR::SHADER::VERTEX::COMPILATION::FAILED" ++ LF) ;;
         cout infoLog ;;
         endl
       else ret tt) ;;
      (* fragment shader *)
      fragmentShader <- glCreateShader GL_FRAGMENT_SHADER ;;
      glShaderSource fragmentShader 1 [fragmentShaderSource] NULL ;;
      glCompileShader fragmentShader ;;
      (* program object *)
      shaderProgram <- glCreateProgram ;;
      glAttachShader shaderProgram vertexShader ;;
      glAttachShader shaderProgram fragmentShader ;;
      glLinkProgram shaderProgram ;;
      (* render loop *)
      render_loop fuel window ;;
      glfwTerminate ;;
      ret 0.

End Program.

Arguments call c w /.
Arguments print s w /.
Arguments get_win w /.
Arguments put_win x w /.
Arguments next_poll w /.
Arguments ret {A} a w /.
Arguments bind {A B} m k w /.
Arguments still_running {A} w /.

(** * Vocabulary for the properties

    Nothing below is part of the program.  These definitions name what the
    statements talk about: the calls each phase of [main] is expected to
    issue, the effect of a batch of events on the window, the calls of one
    frame of the render loop, kinds of calls, and environments to try the
    statements on. *)

(** ** The phases of [main] before the render loop *)

Section Phases.

Variable env : Env.

Let window := glfwCreateWindow_result env.
Let VBO := glGenBuffers_name env.
Let vertexShader := glCreateShader_name env GL_VERTEX_SHADER.
Let fragmentShader := glCreateShader_name env GL_FRAGMENT_SHADER.
Let shaderProgram := glCreateProgram_name env.

Definition bootstrap_calls : list Api.Call :=
  [ Api.glfwInit;
    Api.glfwWindowHint GLFW_CONTEXT_VERSION_MAJOR 4;
    Api.glfwWindowHint GLFW_CONTEXT_VERSION_MINOR 6;
    Api.glfwWindowHint GLFW_OPENGL_PROFILE GLFW_OPENGL_CORE_PROFILE;
    Api.glfwCreateWindow 800 600 "LearnOpenGL" NULL NULL ].

Definition context_calls : list Api.Call :=
  [ Api.glfwMakeContextCurrent window;
    Api.glfwSetFramebufferSizeCallback window framebuffer_size_callback_addr;
    Api.gladLoadGLLoader glfwGetProcAddress_addr ].

Definition upload_calls : list Api.Call :=
  [ Api.glGenBuffers 1;
    Api.glBindBuffer GL_ARRAY_BUFFER VBO;
    Api.glBufferData GL_ARRAY_BUFFER 36 verticies GL_STATIC_DRAW ].

Definition vertex_calls : list Api.Call :=
  [ Api.glCreateShader GL_VERTEX_SHADER;
    Api.glShaderSource vertexShader 1 [vertexShaderSource] NULL;
    Api.glCompileShader vertexShader;
    Api.glGetShaderiv vertexShader GL_COMPILE_STATUS ].

(** What the driver answers to the compile-status query on the vertex
    shader's handle: a status, or nothing when the handle is no shader
    object. *)
Definition status_answer : option Z :=
  if is_shader env vertexShader
  then Some (shader_iv env vertexShader GL_COMPILE_STATUS)
  else None.

(** The value [success] holds after the compile-status query. *)
Definition vertex_status : Z :=
  match status_answer with
  | Some status => status
  | None => stale_success env
  end.

(** The text [std::cout << infoLog] writes when [success] is zero. *)
Definition printed_log : string :=
  c_str (if is_shader env vertexShader
         then substring 0 511 (shader_info_log env vertexShader)
         else stale_infoLog env).

Definition diagnostic_calls : list Api.Call :=
  if vertex_status =? 0
  then [ Api.glGetShaderInfoLog vertexShader 512 NULL ]
  else [].

Definition diagnostic_text : string :=
  if vertex_status =? 0
  then ("ERROR::SHADER::VERTEX::COMPILATION::FAILED" ++ LF
          ++ printed_log ++ LF)%string
  else EmptyString.

Definition link_calls : list Api.Call :=
  [ Api.glCreateShader GL_FRAGMENT_SHADER;
    Api.glShaderSource fragmentShader 1 [fragmentShaderSource] NULL;
    Api.glCompileShader fragmentShader;
    Api.glCreateProgram;
    Api.glAttachShader shaderProgram vertexShader;
    Api.glAttachShader shaderProgram fragmentShader;
    Api.glLinkProgram shaderProgram ].

Definition setup_calls : list Api.Call :=
  (bootstrap_calls ++ context_calls ++ upload_calls ++ vertex_calls
     ++ diagnostic_calls ++ link_calls)%list.

(** The window right after a successful bootstrap. *)
Definition fresh_window : Window :=
  {| handle := window; shouldClose := false; keysDown := [];
     framebufferSizeCallback := Some framebuffer_size_callback_addr |}.

(** The world in which the render loop starts. *)
Definition ready : World :=
  {| calls := setup_calls; stdout := diagnostic_text;
     win := fresh_window; polled := 0%nat |}.

End Phases.

(** What follows the loop: lines 166-167. *)
Definition shutdown : M Z :=
  (glfwTerminate ;; ret 0)%prog.

(** ** Event delivery *)

(** The framebuffer sizes announced by a batch of events, in order. *)
Definition resizes (evs : list Event) : list (Z * Z) :=
  flat_map (fun ev => match ev with
                      | EvFramebufferSize width height => [(width, height)]
                      | _ => []
                      end) evs.

(** The sizes that reach a callback: all of them if one is registered. *)
Definition dispatched (x : Window) (evs : list Event) : list (Z * Z) :=
  match framebufferSizeCallback x with
  | Some _ => resizes evs
  | None => []
  end.

Definition viewport_call (size : Z * Z) : Api.Call :=
  Api.glViewport 0 0 (fst size) (snd size).

(** The window after one event. *)
Definition after_event (x : Window) (ev : Event) : Window :=
  match ev with
  | EvKey key pressed =>
      let others := filter (fun k => negb (k =? key)) (keysDown x) in
      {| handle := handle x; shouldClose := shouldClose x;
         keysDown := if pressed then key :: others else others;
         framebufferSizeCallback := framebufferSizeCallback x |}
  | EvFramebufferSize _ _ => x
  | EvClose =>
      {| handle := handle x; shouldClose := true; keysDown := keysDown x;
         framebufferSizeCallback := framebufferSizeCallback x |}
  end.

Definition after_events (evs : list Event) (x : Window) : Window :=
  fold_left after_event evs x.

(** ** One frame of the render loop *)

(** The calls of one pass through the loop body, in the order the
    specification lists them: input processing (the key query, then the
    close request when Escape is down), clear colour, clear, swap, poll;
    the poll hands every announced framebuffer size to the resize
    callback. *)
Definition body_calls (window : Z) (esc : bool) (sizes : list (Z * Z))
  : list Api.Call :=
  ([Api.glfwGetKey window GLFW_KEY_ESCAPE]
     ++ (if esc then [Api.glfwSetWindowShouldClose window 1] else [])
     ++ [Api.glClearColor (F32.lit 2 1) (F32.lit 3 1) (F32.lit 3 1) (F32.lit 10 1);
         Api.glClear GL_COLOR_BUFFER_BIT;
         Api.glfwSwapBuffers window;
         Api.glfwPollEvents]
     ++ map viewport_call sizes)%list.

(** A frame is a loop condition that let the body run, then the body.  It
    is described by whether Escape was down and by the sizes dispatched. *)
Definition frame_calls (window : Z) (f : bool * list (Z * Z)) : list Api.Call :=
  Api.glfwWindowShouldClose window :: body_calls window (fst f) (snd f).

(** The calls that close a run of the loop: the condition that came out
    false, if the run got that far. *)
Definition last_check {A : Type} (window : Z) (r : option A) : list Api.Call :=
  match r with
  | Some _ => [Api.glfwWindowShouldClose window]
  | None => []
  end.

(** How a run of [main] that got past the loop ends: the condition that
    came out false, then the teardown of line 166. *)
Definition closing {A : Type} (window : Z) (r : option A) : list Api.Call :=
  match r with
  | Some _ => [Api.glfwWindowShouldClose window; Api.glfwTerminate]
  | None => []
  end.

Definition escape_down (x : Window) : bool :=
  existsb (Z.eqb GLFW_KEY_ESCAPE) (keysDown x).

Definition close_requested (x : Window) : Window :=
  {| handle := handle x; shouldClose := true; keysDown := keysDown x;
     framebufferSizeCallback := framebufferSizeCallback x |}.

(** The window after [processInput]. *)
Definition after_input (x : Window) : Window :=
  if escape_down x then close_requested x else x.

(** The window at the end of a frame that started in [x] and polled the
    events [evs]. *)
Definition after_frame (evs : list Event) (x : Window) : Window :=
  after_events evs (after_input x).

(** [w] with further calls on record. *)
Definition logged (l : list Api.Call) (w : World) : World :=
  {| calls := (calls w ++ l)%list; stdout := stdout w;
     win := win w; polled := polled w |}.

(** ** What a run depends on *)

(** Two environments give the same answers to every question [main] asks:
    the handles, the loader's result, what [success] and [infoLog] hold
    after the queries on the vertex shader's handle, and the events.  Nothing is required of [glfwInit]'s result, of the
    status or log of any other shader object, or of any program object. *)
Record same_answers (e1 e2 : Env) : Prop := {
  same_window  : glfwCreateWindow_result e1 = glfwCreateWindow_result e2;
  same_loader  : gladLoadGLLoader_result e1 = gladLoadGLLoader_result e2;
  same_buffer  : glGenBuffers_name e1 = glGenBuffers_name e2;
  same_shaders : forall type,
                   glCreateShader_name e1 type = glCreateShader_name e2 type;
  same_program : glCreateProgram_name e1 = glCreateProgram_name e2;
  same_status  : vertex_status e1 = vertex_status e2;
  same_log     : printed_log e1 = printed_log e2;
  same_events  : forall k, events e1 k = events e2 k
}.

(** ** Kinds of calls *)

Definition is_buffer_call (c : Api.Call) : bool :=
  match c with
  | Api.glGenBuffers _ | Api.glBindBuffer _ _
  | Api.glBufferData _ _ _ _ | Api.glBufferSubData _ _ _ _ => true
  | _ => false
  end.

(** Status and log queries on shader and program objects. *)
Definition is_query (c : Api.Call) : bool :=
  match c with
  | Api.glGetShaderiv _ _ | Api.glGetShaderInfoLog _ _ _
  | Api.glGetProgramiv _ _ | Api.glGetProgramInfoLog _ _ _ => true
  | _ => false
  end.

Definition is_program_query (c : Api.Call) : bool :=
  match c with
  | Api.glGetProgramiv _ _ | Api.glGetProgramInfoLog _ _ _ => true
  | _ => false
  end.

Definition creates_fragment_shader (c : Api.Call) : bool :=
  match c with
  | Api.glCreateShader type => type =? GL_FRAGMENT_SHADER
  | _ => false
  end.

(** Activating a program object, or drawing. *)
Definition uses_or_draws (c : Api.Call) : bool :=
  match c with
  | Api.glUseProgram _ | Api.glDrawArrays _ _ _
  | Api.glDrawElements _ _ _ _ => true
  | _ => false
  end.

(** Entry points of OpenGL proper (neither GLFW nor GLAD). *)
Definition is_gl (c : Api.Call) : bool :=
  match c with
  | Api.glfwInit | Api.glfwTerminate | Api.glfwWindowHint _ _
  | Api.glfwCreateWindow _ _ _ _ _ | Api.glfwMakeContextCurrent _
  | Api.glfwSetFramebufferSizeCallback _ _ | Api.glfwWindowShouldClose _
  | Api.glfwSetWindowShouldClose _ _ | Api.glfwGetKey _ _
  | Api.glfwSwapBuffers _ | Api.glfwPollEvents
  | Api.gladLoadGLLoader _ => false
  | _ => true
  end.

Definition is_swap (c : Api.Call) : bool :=
  match c with Api.glfwSwapBuffers _ => true | _ => false end.

Definition is_poll (c : Api.Call) : bool :=
  match c with Api.glfwPollEvents => true | _ => false end.

Definition is_clear (c : Api.Call) : bool :=
  match c with Api.glClear _ => true | _ => false end.

Definition is_clear_color (c : Api.Call) : bool :=
  match c with Api.glClearColor _ _ _ _ => true | _ => false end.

Definition is_key_query (c : Api.Call) : bool :=
  match c with Api.glfwGetKey _ _ => true | _ => false end.

Definition is_loop_check (c : Api.Call) : bool :=
  match c with Api.glfwWindowShouldClose _ => true | _ => false end.

Definition is_terminate (c : Api.Call) : bool :=
  match c with Api.glfwTerminate => true | _ => false end.

Definition count (p : Api.Call -> bool) (l : list Api.Call) : nat :=
  List.length (filter p l).

(** ** Environments to run the program in *)

(** A driver that rejects the vertex shader, a resize and an Escape press
    at the second poll, a close request at the fifth. *)
Definition sample_env : Env :=
  {| glfwInit_result := 1;
     glfwCreateWindow_result := 4096;
     gladLoadGLLoader_result := 1;
     glGenBuffers_name := 1;
     glCreateShader_name := fun type => if type =? GL_VERTEX_SHADER then 1 else 2;
     glCreateProgram_name := 3;
     is_shader := fun name => (name =? 1) || (name =? 2);
     shader_iv := fun shader _ => if shader =? 1 then 0 else 1;
     shader_info_log := fun _ => "0:1(1): error: syntax error"%string;
     program_iv := fun _ _ => 1;
     stale_success := 1;
     stale_infoLog := EmptyString;
     events := fun k =>
       match k with
       | 1%nat => [EvFramebufferSize 640 480; EvKey GLFW_KEY_ESCAPE true]
       | 4%nat => [EvClose]
       | _ => []
       end |}.

(** No key is ever pressed; the window is closed at the third poll. *)
Definition quiet_env : Env :=
  {| glfwInit_result := 1;
     glfwCreateWindow_result := 4096;
     gladLoadGLLoader_result := 1;
     glGenBuffers_name := 1;
     glCreateShader_name := fun type => if type =? GL_VERTEX_SHADER then 1 else 2;
     glCreateProgram_name := 3;
     is_shader := fun name => (name =? 1) || (name =? 2);
     shader_iv := fun _ _ => 1;
     shader_info_log := fun _ => EmptyString;
     program_iv := fun _ _ => 1;
     stale_success := 1;
     stale_infoLog := EmptyString;
     events := fun k => match k with 2%nat => [EvClose] | _ => [] end |}.

(** [e] with another window-creation result. *)
Definition with_window (h : Z) (e : Env) : Env :=
  {| glfwInit_result := glfwInit_result e;
     glfwCreateWindow_result := h;
     gladLoadGLLoader_result := gladLoadGLLoader_result e;
     glGenBuffers_name := glGenBuffers_name e;
     glCreateShader_name := glCreateShader_name e;
     glCreateProgram_name := glCreateProgram_name e;
     is_shader := is_shader e;
     shader_iv := shader_iv e;
     shader_info_log := shader_info_log e;
     program_iv := program_iv e;
     stale_success := stale_success e;
     stale_infoLog := stale_infoLog e;
     events := events e |}.

(** [e] with another result of the loader. *)
Definition with_loader (r : Z) (e : Env) : Env :=
  {| glfwInit_result := glfwInit_result e;
     glfwCreateWindow_result := glfwCreateWindow_result e;
     gladLoadGLLoader_result := r;
     glGenBuffers_name := glGenBuffers_name e;
     glCreateShader_name := glCreateShader_name e;
     glCreateProgram_name := glCreateProgram_name e;
     is_shader := is_shader e;
     shader_iv := shader_iv e;
     shader_info_log := shader_info_log e;
     program_iv := program_iv e;
     stale_success := stale_success e;
     stale_infoLog := stale_infoLog e;
     events := events e |}.

(** [e] with another result of [glfwInit]. *)
Definition with_init (r : Z) (e : Env) : Env :=
  {| glfwInit_result := r;
     glfwCreateWindow_result := glfwCreateWindow_result e;
     gladLoadGLLoader_result := gladLoadGLLoader_result e;
     glGenBuffers_name := glGenBuffers_name e;
     glCreateShader_name := glCreateShader_name e;
     glCreateProgram_name := glCreateProgram_name e;
     is_shader := is_shader e;
     shader_iv := shader_iv e;
     shader_info_log := shader_info_log e;
     program_iv := program_iv e;
     stale_success := stale_success e;
     stale_infoLog := stale_infoLog e;
     events := events e |}.

(** [e] with another driver: other statuses and logs. *)
Definition with_driver (siv : Z -> Z -> Z) (log : Z -> string)
           (piv : Z -> Z -> Z) (e : Env) : Env :=
  {| glfwInit_result := glfwInit_result e;
     glfwCreateWindow_result := glfwCreateWindow_result e;
     gladLoadGLLoader_result := gladLoadGLLoader_result e;
     glGenBuffers_name := glGenBuffers_name e;
     glCreateShader_name := glCreateShader_name e;
     glCreateProgram_name := glCreateProgram_name e;
     is_shader := is_shader e;
     shader_iv := siv;
     shader_info_log := log;
     program_iv := piv;
     stale_success := stale_success e;
     stale_infoLog := stale_infoLog e;
     events := events e |}.




(** A driver for which every shader compilation and every link fails. *)
Definition failing_siv (shader pname : Z) : Z := 0.
Definition failing_piv (program pname : Z) : Z := 0.

(** A world with a window in which Escape is down. *)
Definition escape_held : World :=
  {| calls := []; stdout := EmptyString;
     win := {| handle := 4096; shouldClose := false;
               keysDown := [GLFW_KEY_ESCAPE];
               framebufferSizeCallback := Some framebuffer_size_callback_addr |};
     polled := 0%nat |}.

(** ** Further vocabulary: events that matter to the loop *)

Definition is_viewport (c : Api.Call) : bool :=
  match c with Api.glViewport _ _ _ _ => true | _ => false end.

(** An event that can make the loop end: a close request, or a press of
    Escape. *)
Definition ends_loop (ev : Event) : bool :=
  match ev with
  | EvClose => true
  | EvKey key pressed => (key =? GLFW_KEY_ESCAPE) && pressed
  | EvFramebufferSize _ _ => false
  end.

(** A batch of events none of which can make the loop end. *)
Definition quiet (evs : list Event) : bool :=
  forallb (fun ev => negb (ends_loop ev)) evs.

(** Whether Escape is down after a batch of events, given whether it was
    down before: the last Escape event of the batch decides. *)
Definition escape_after (evs : list Event) (down : bool) : bool :=
  fold_left (fun d ev =>
               match ev with
               | EvKey key pressed => if key =? GLFW_KEY_ESCAPE then pressed else d
               | _ => d
               end) evs down.

(** The framebuffer sizes announced by the polls [from], ..., [from + n - 1],
    in order. *)
Definition resizes_between (env : Env) (from n : nat) : list (Z * Z) :=
  flat_map (fun k => resizes (events env k)) (seq from n).

(** The window handle a GLFW call is made on, if it takes one. *)
Definition window_arg (c : Api.Call) : option Z :=
  match c with
  | Api.glfwMakeContextCurrent window
  | Api.glfwSetFramebufferSizeCallback window _
  | Api.glfwWindowShouldClose window
  | Api.glfwSetWindowShouldClose window _
  | Api.glfwGetKey window _
  | Api.glfwSwapBuffers window => Some window
  | _ => None
  end.

Definition takes_window (c : Api.Call) : bool :=
  match window_arg c with Some _ => true | None => false end.

(** A call made on a window handle other than [window]. *)
Definition on_other_window (window : Z) (c : Api.Call) : bool :=
  match window_arg c with
  | Some h => negb (h =? window)
  | None => false
  end.

(** Escape is pressed at the first poll and released at the second; the
    framebuffer is resized twice at the first poll; nobody asks to close. *)
Definition escape_env : Env :=
  {| glfwInit_result := 1;
     glfwCreateWindow_result := 4096;
     gladLoadGLLoader_result := 1;
     glGenBuffers_name := 1;
     glCreateShader_name := fun type => if type =? GL_VERTEX_SHADER then 1 else 2;
     glCreateProgram_name := 3;
     is_shader := fun name => (name =? 1) || (name =? 2);
     shader_iv := fun _ _ => 1;
     shader_info_log := fun _ => EmptyString;
     program_iv := fun _ _ => 1;
     stale_success := 1;
     stale_infoLog := EmptyString;
     events := fun k =>
       match k with
       | 0%nat => [EvFramebufferSize 640 480; EvKey GLFW_KEY_ESCAPE true;
                   EvFramebufferSize 0 (-1)]
       | 1%nat => [EvKey GLFW_KEY_ESCAPE false]
       | _ => []
       end |}.

(** * Properties *)

(** ** Strings and lists *)



Lemma count_app p l1 l2 : count p (l1 ++ l2) = (count p l1 + count p l2)%nat.
Proof. unfold count. now rewrite filter_app, length_app. Qed.

Lemma filter_nil_middle {A : Type} (p : A -> bool) (x : A) (l1 l2 : list A) :
  filter p (l1 ++ x :: l2) = [] -> p x = false.
Proof.
  rewrite filter_app; cbn. destruct (p x); [|reflexivity].
  intros H. apply app_eq_nil in H. destruct H as [_ H]. discriminate.
Qed.

(** An element the rest of the list has no like of splits the list in one
    way only. *)
Lemma unique_split {A : Type} (p : A -> bool) (x : A) :
  p x = true ->
  forall a b l1 l2 : list A,
    filter p a = [] -> filter p b = [] ->
    (a ++ x :: b)%list = (l1 ++ x :: l2)%list ->
    l2 = b.
Proof.
  intros Hx. induction a as [|a0 a IH]; intros b [|y l1] l2 Ha Hb E;
    cbn in E.
  - congruence.
  - assert (Eb : b = (l1 ++ x :: l2)%list) by congruence.
    subst b. apply filter_nil_middle in Hb. congruence.
  - assert (E0 : a0 = x) by congruence.
    subst a0. cbn in Ha. rewrite Hx in Ha. discriminate.
  - cbn in Ha. destruct (p a0); [discriminate|].
    apply (IH b l1 l2); congruence.
Qed.

(** ** The run up to the render loop

    [main] issues exactly the calls the phases list: on each of its three
    paths the run is computed in full. *)

Section BeforeTheLoop.

Variable env : Env.
Variable fuel : nat.

Lemma main_no_window :
  glfwCreateWindow_result env = NULL ->
  main env fuel init =
    (Some (-1),
     {| calls := (bootstrap_calls ++ [Api.glfwTerminate])%list;
        stdout := ("Failed to create GLFW window" ++ LF)%string;
        win := no_window; polled := 0%nat |}).
Proof.
  intros Hw. unfold main, glfwCreateWindow. cbn.
  rewrite Hw. reflexivity.
Qed.

Lemma main_no_loader :
  glfwCreateWindow_result env <> NULL ->
  gladLoadGLLoader_result env = 0 ->
  main env fuel init =
    (Some (-1),
     {| calls := (bootstrap_calls ++ context_calls env)%list;
        stdout := ("Failed to initialize GLAD" ++ LF)%string;
        win := fresh_window env; polled := 0%nat |}).
Proof.
  intros Hw Hl. apply Z.eqb_neq in Hw.
  unfold main, glfwCreateWindow, fresh_window.
  cbn. rewrite Hw. cbn. rewrite Hw. cbn. rewrite Hl. reflexivity.
Qed.

Lemma main_running :
  glfwCreateWindow_result env <> NULL ->
  gladLoadGLLoader_result env <> 0 ->
  main env fuel init =
    (render_loop env fuel (glfwCreateWindow_result env) ;; shutdown)%prog
      (ready env).
Proof.
  intros Hw Hl. apply Z.eqb_neq in Hw, Hl.
  unfold main, glfwCreateWindow, ready, setup_calls, diagnostic_calls,
    diagnostic_text, printed_log, vertex_status, status_answer, fresh_window.
  cbn. rewrite Hw. cbn. rewrite Hw. cbn. rewrite Hl. cbn.
  destruct (is_shader env (glCreateShader_name env GL_VERTEX_SHADER)) eqn:Hs.
  - destruct (shader_iv env (glCreateShader_name env GL_VERTEX_SHADER)
                GL_COMPILE_STATUS); cbn; rewrite ?Hs; reflexivity.
  - destruct (stale_success env); cbn; rewrite ?Hs; reflexivity.
Qed.

End BeforeTheLoop.

(** Case analysis on the path [main] takes, rewriting the run on the two
    failure paths. *)
Ltac main_paths env fuel :=
  let Hn := fresh "Hn" in
  let Hg := fresh "Hg" in
  destruct (Z.eq_dec (glfwCreateWindow_result env) NULL) as [Hn | Hn];
  [ rewrite (main_no_window env fuel Hn)
  | destruct (Z.eq_dec (gladLoadGLLoader_result env) 0) as [Hg | Hg];
    [ rewrite (main_no_loader env fuel Hn Hg) | ] ].

(** The calls of [setup_calls], by kind. *)

Lemma setup_buffer_calls (env : Env) :
  filter is_buffer_call (setup_calls env) = upload_calls env.
Proof.
  unfold setup_calls, diagnostic_calls.
  destruct (vertex_status env =? 0); reflexivity.
Qed.


Lemma setup_uses_or_draws (env : Env) :
  filter uses_or_draws (setup_calls env) = [].
Proof.
  unfold setup_calls, diagnostic_calls.
  destruct (vertex_status env =? 0); reflexivity.
Qed.

Lemma setup_calls_split (env : Env) :
  setup_calls env =
    ((bootstrap_calls ++ context_calls env ++ upload_calls env
        ++ vertex_calls env ++ diagnostic_calls env)
       ++ Api.glCreateShader GL_FRAGMENT_SHADER :: tl (link_calls env))%list.
Proof. unfold setup_calls. now rewrite <- !app_assoc. Qed.

(** ** Event delivery *)

Lemma after_event_callback x ev :
  framebufferSizeCallback (after_event x ev) = framebufferSizeCallback x.
Proof. destruct ev; reflexivity. Qed.

Lemma after_event_keeps_close x ev :
  shouldClose x = true -> shouldClose (after_event x ev) = true.
Proof. destruct ev; simpl; auto. Qed.

(** The windowing layer raises the close flag and never lowers it. *)
Lemma after_events_keeps_close evs : forall x,
  shouldClose x = true -> shouldClose (after_events evs x) = true.
Proof.
  induction evs as [|ev evs IH]; intros x Hx; simpl; [assumption|].
  apply IH, after_event_keeps_close, Hx.
Qed.

Lemma after_events_close_request evs : forall x,
  In EvClose evs -> shouldClose (after_events evs x) = true.
Proof.
  induction evs as [|ev evs IH]; intros x Hin; simpl; [destruct Hin|].
  destruct Hin as [-> | Hin].
  - now apply after_events_keeps_close.
  - now apply IH.
Qed.

(** A press of Escape that no release follows leaves Escape down. *)
Lemma escape_press_event (x : Window) :
  escape_down (after_event x (EvKey GLFW_KEY_ESCAPE true)) = true.
Proof. reflexivity. Qed.

Lemma dispatched_cons x ev evs :
  dispatched x (ev :: evs) =
    (dispatched x [ev] ++ dispatched (after_event x ev) evs)%list.
Proof.
  unfold dispatched. rewrite after_event_callback.
  destruct (framebufferSizeCallback x); [|reflexivity].
  unfold resizes; simpl. now rewrite app_nil_r.
Qed.

Lemma deliver_run (ev : Event) (w : World) :
  deliver ev w =
    (Some tt,
     {| calls := (calls w ++ map viewport_call (dispatched (win w) [ev]))%list;
        stdout := stdout w;
        win := after_event (win w) ev;
        polled := polled w |}).
Proof.
  destruct w as [c o [h sc kd cb] p].
  destruct ev as [key pressed | width height | ], cb as [[]|]; cbn;
    rewrite ?app_nil_r; reflexivity.
Qed.

Lemma for_each_deliver_run (evs : list Event) : forall w : World,
  for_each deliver evs w =
    (Some tt,
     {| calls := (calls w ++ map viewport_call (dispatched (win w) evs))%list;
        stdout := stdout w;
        win := after_events evs (win w);
        polled := polled w |}).
Proof.
  induction evs as [|ev evs IH]; intros w.
  - destruct w as [c o x p]; cbn.
    unfold dispatched; destruct (framebufferSizeCallback x);
      cbn; now rewrite app_nil_r.
  - cbn [for_each]. unfold bind at 1. rewrite deliver_run, IH. cbn.
    now rewrite (dispatched_cons (win w) ev evs), map_app, app_assoc.
Qed.

(** ** One frame *)

Lemma after_input_callback x :
  framebufferSizeCallback (after_input x) = framebufferSizeCallback x.
Proof. unfold after_input; destruct (escape_down x); reflexivity. Qed.

Lemma after_input_escape x :
  escape_down x = true -> shouldClose (after_input x) = true.
Proof. unfold after_input; intros ->; reflexivity. Qed.

Section Loop.

Variable env : Env.
Variable window : Z.

Lemma processInput_run (w : World) :
  processInput window w =
    (Some tt,
     {| calls := (calls w ++ Api.glfwGetKey window GLFW_KEY_ESCAPE
                    :: (if escape_down (win w)
                        then [Api.glfwSetWindowShouldClose window 1]
                        else []))%list;
        stdout := stdout w;
        win := after_input (win w);
        polled := polled w |}).
Proof.
  destruct w as [c o [h sc kd cb] p].
  unfold processInput, after_input, escape_down; cbn.
  destruct (existsb (Z.eqb GLFW_KEY_ESCAPE) kd); cbn;
    [now rewrite <- app_assoc | reflexivity].
Qed.

Lemma loop_body_run (w : World) :
  loop_body env window w =
    (Some tt,
     {| calls := (calls w ++
                    body_calls window (escape_down (win w))
                      (dispatched (win w) (events env (polled w))))%list;
        stdout := stdout w;
        win := after_frame (events env (polled w)) (win w);
        polled := S (polled w) |}).
Proof.
  unfold loop_body. unfold bind at 1. rewrite processInput_run.
  unfold glfwPollEvents; cbn. rewrite for_each_deliver_run; cbn.
  unfold dispatched. rewrite after_input_callback.
  unfold body_calls, after_frame.
  repeat (rewrite <- app_assoc; cbn). reflexivity.
Qed.

(** One evaluation of the loop condition and what it leads to. *)
Lemma render_loop_unfold (n : nat) (w : World) :
  render_loop env (S n) window w =
    if shouldClose (win w)
    then (Some tt, logged [Api.glfwWindowShouldClose window] w)
    else render_loop env n window
           (world (loop_body env window
                     (logged [Api.glfwWindowShouldClose window] w))).
Proof.
  cbn [render_loop]. unfold glfwWindowShouldClose; cbn.
  destruct (shouldClose (win w)); cbn; [reflexivity|].
  fold (logged [Api.glfwWindowShouldClose window] w).
  rewrite loop_body_run. reflexivity.
Qed.

(** With the close flag up, the loop ends at its next condition. *)
Lemma render_loop_closed (n : nat) (w : World) :
  shouldClose (win w) = true ->
  render_loop env (S n) window w =
    (Some tt, logged [Api.glfwWindowShouldClose window] w).
Proof. intros H. now rewrite render_loop_unfold, H. Qed.

(** ** The render loop as a sequence of frames *)

Lemma render_loop_frames (fuel : nat) : forall w : World,
  exists frames : list (bool * list (Z * Z)),
    let r := render_loop env fuel window w in
    calls (world r) =
      (calls w ++ List.concat (map (frame_calls window) frames)
         ++ last_check window (result r))%list
    /\ stdout (world r) = stdout w
    /\ polled (world r) = (polled w + List.length frames)%nat
    /\ (result r = None -> List.length frames = fuel)
    /\ (result r <> None -> shouldClose (win (world r)) = true).
Proof.
  induction fuel as [|n IH]; intros w.
  - exists []. cbn. rewrite app_nil_r, Nat.add_0_r. intuition congruence.
  - rewrite render_loop_unfold.
    destruct (shouldClose (win w)) eqn:Hc.
    + exists []. cbn. rewrite Nat.add_0_r. intuition congruence.
    + set (w0 := logged [Api.glfwWindowShouldClose window] w).
      set (f := (escape_down (win w),
                 dispatched (win w) (events env (polled w)))).
      assert (Hb : exists w1,
                 world (loop_body env window w0) = w1
                 /\ calls w1 = (calls w ++ frame_calls window f)%list
                 /\ stdout w1 = stdout w
                 /\ polled w1 = S (polled w)).
      { rewrite loop_body_run. eexists; split; [reflexivity|].
        unfold frame_calls, w0, logged; cbn [calls stdout polled fst snd].
        now rewrite <- app_assoc. }
      destruct Hb as (w1 & -> & Hc1 & Ho1 & Hp1).
      destruct (IH w1) as (frames & Hcalls & Hout & Hpolled & Hfuel & Hclose).
      exists (f :: frames). cbv zeta in *.
      rewrite Hcalls, Hout, Hpolled, Hc1, Ho1, Hp1.
      cbn [map List.concat List.length].
      repeat split.
      * now rewrite <- !app_assoc.
      * lia.
      * intros H. now rewrite (Hfuel H).
      * exact Hclose.
Qed.

(** A close request delivered by the [k]-th poll ends the loop, given
    fuel for the frames up to that poll and the final condition. *)
Lemma render_loop_terminates (fuel : nat) : forall (w : World) (k : nat),
  (polled w <= k)%nat ->
  In EvClose (events env k) ->
  (k - polled w + 2 <= fuel)%nat ->
  result (render_loop env fuel window w) = Some tt.
Proof.
  induction fuel as [|n IH]; intros w k Hk Hin Hfuel; [lia|].
  rewrite render_loop_unfold.
  destruct (shouldClose (win w)) eqn:Hc; [reflexivity|].
  rewrite loop_body_run. unfold world, logged.
  cbn [snd calls stdout win polled].
  destruct (Nat.eq_dec (polled w) k) as [-> | Hne].
  - destruct n as [|m]; [lia|].
    rewrite render_loop_closed; [reflexivity|].
    cbn. unfold after_frame. now apply after_events_close_request.
  - apply (IH _ k); cbn; [lia | assumption | lia].
Qed.

End Loop.

(** ** Calls of a kind, frame by frame *)

Lemma filter_viewports (p : Api.Call -> bool) (sizes : list (Z * Z)) :
  (forall s, p (viewport_call s) = false) ->
  filter p (map viewport_call sizes) = [].
Proof.
  intros H. induction sizes as [|s l IH]; cbn; [reflexivity|].
  now rewrite H.
Qed.

(** The calls of a frame of a kind that no viewport update is of are those
    of the frame without its viewport updates. *)
Lemma filter_frame_calls (p : Api.Call -> bool) (window : Z) :
  (forall s, p (viewport_call s) = false) ->
  forall f,
    filter p (frame_calls window f) = filter p (frame_calls window (fst f, [])).
Proof.
  intros Hv [esc sizes].
  unfold frame_calls, body_calls; cbn [fst snd map].
  rewrite !app_comm_cons, !app_assoc, !filter_app.
  now rewrite (filter_viewports p sizes Hv).
Qed.

(** A kind none of the calls of a frame is of occurs in no run of frames. *)
Lemma frames_without (p : Api.Call -> bool) (window : Z) :
  (forall s, p (viewport_call s) = false) ->
  (forall esc, filter p (frame_calls window (esc, [])) = []) ->
  forall frames, filter p (List.concat (map (frame_calls window) frames)) = [].
Proof.
  intros Hv H. induction frames as [|f l IH]; cbn [map List.concat];
    [reflexivity|].
  now rewrite filter_app, filter_frame_calls, H, IH.
Qed.

(** A kind that occurs once in a frame occurs as often as there are
    frames. *)
Lemma count_frames (p : Api.Call -> bool) (window : Z) :
  (forall s, p (viewport_call s) = false) ->
  (forall esc, count p (frame_calls window (esc, [])) = 1%nat) ->
  forall frames,
    count p (List.concat (map (frame_calls window) frames)) = List.length frames.
Proof.
  intros Hv H. induction frames as [|f l IH]; cbn [map List.concat List.length];
    [reflexivity|].
  rewrite count_app, IH. unfold count at 1.
  rewrite filter_frame_calls by exact Hv.
  fold (count p (frame_calls window (fst f, []))). now rewrite H.
Qed.

(** ** The whole run *)

Lemma main_running_frames (env : Env) (fuel : nat) :
  glfwCreateWindow_result env <> NULL ->
  gladLoadGLLoader_result env <> 0 ->
  exists frames : list (bool * list (Z * Z)),
    let window := glfwCreateWindow_result env in
    let r := main env fuel init in
    calls (world r) =
      (setup_calls env ++ List.concat (map (frame_calls window) frames)
         ++ closing window (result r))%list
    /\ stdout (world r) = diagnostic_text env
    /\ (result r = None /\ List.length frames = fuel
        \/ result r = Some 0 /\ shouldClose (win (world r)) = true).
Proof.
  intros Hw Hl. rewrite (main_running env fuel Hw Hl).
  destruct (render_loop_frames env (glfwCreateWindow_result env) fuel (ready env))
    as (frames & Hcalls & Hout & _ & Hfuel & Hclose).
  exists frames. cbv zeta in *. unfold bind, shutdown.
  destruct (render_loop env fuel (glfwCreateWindow_result env) (ready env))
    as [[[]|] w'] eqn:E; unfold result, world, last_check in *;
    cbn [fst snd] in *; cbn.
  - rewrite Hcalls, Hout. cbn. rewrite <- !app_assoc.
    repeat split. right. split; [reflexivity | apply Hclose; discriminate].
  - rewrite Hcalls, Hout. cbn. repeat split. left. auto.
Qed.

(** A kind of call that the frames and the end of a run have none of occurs
    in a run that reached the loop exactly where it occurs before the
    loop. *)
Lemma main_running_filter (p : Api.Call -> bool) (env : Env) (fuel : nat) :
  glfwCreateWindow_result env <> NULL ->
  gladLoadGLLoader_result env <> 0 ->
  (forall s, p (viewport_call s) = false) ->
  (forall esc,
     filter p (frame_calls (glfwCreateWindow_result env) (esc, [])) = []) ->
  p (Api.glfwWindowShouldClose (glfwCreateWindow_result env)) = false ->
  p Api.glfwTerminate = false ->
  filter p (calls (world (main env fuel init))) = filter p (setup_calls env).
Proof.
  intros Hw Hl Hv Hf Hc Ht.
  destruct (main_running_frames env fuel Hw Hl) as (frames & Hcalls & _).
  cbv zeta in Hcalls. rewrite Hcalls, !filter_app.
  rewrite (frames_without p _ Hv Hf).
  destruct (result (main env fuel init)); cbn [closing filter app];
    rewrite ?Hc, ?Ht; now rewrite app_nil_r.
Qed.

(** ** What a run depends on *)

Lemma render_loop_same_events (e1 e2 : Env) (window : Z) :
  (forall k, events e1 k = events e2 k) ->
  forall (fuel : nat) (w : World),
    render_loop e1 fuel window w = render_loop e2 fuel window w.
Proof.
  intros Hev. induction fuel as [|n IH]; intros w; [reflexivity|].
  rewrite !render_loop_unfold, !loop_body_run.
  destruct (shouldClose (win w)); [reflexivity|].
  unfold logged; cbn [calls stdout win polled]. now rewrite Hev, IH.
Qed.

Lemma ready_same_answers (e1 e2 : Env) :
  same_answers e1 e2 -> ready e1 = ready e2.
Proof.
  intros [Hw Hl Hb Hs Hp Hst Hlog Hev].
  unfold ready, setup_calls, context_calls, upload_calls, vertex_calls,
    diagnostic_calls, diagnostic_text, link_calls, fresh_window.
  now rewrite Hw, Hb, Hp, Hst, Hlog, !Hs.
Qed.

Lemma main_same_answers (e1 e2 : Env) :
  same_answers e1 e2 ->
  forall fuel : nat, main e1 fuel init = main e2 fuel init.
Proof.
  intros Hsame fuel. pose proof Hsame as [Hw Hl Hb Hs Hp Hst Hlog Hev].
  destruct (Z.eq_dec (glfwCreateWindow_result e1) NULL) as [Hn | Hn].
  - rewrite !main_no_window by congruence. reflexivity.
  - destruct (Z.eq_dec (gladLoadGLLoader_result e1) 0) as [Hg | Hg].
    + rewrite !main_no_loader by congruence.
      unfold context_calls, fresh_window. now rewrite Hw.
    + rewrite !main_running by congruence.
      rewrite (ready_same_answers e1 e2 Hsame), Hw. unfold bind.
      now rewrite (render_loop_same_events e1 e2 _ Hev).
Qed.

(** Side conditions of the lemmas on kinds of calls: each is decided by
    evaluating the kind on a call of known shape. *)
Ltac kind_facts :=
  first [ assumption
        | intros [|]; reflexivity
        | intros; reflexivity ].

(** * The claims *)

(** C1. Geometry upload.  In every run that reaches the upload, the buffer
    calls of the whole run, however long the render loop goes on, are
    exactly three: one buffer name is generated, that buffer is bound to
    [GL_ARRAY_BUFFER], and one [glBufferData] copies [verticies] into it
    with size 36 and usage [GL_STATIC_DRAW]; nothing writes buffer data
    afterwards.  The nine values are exactly -1/2, -1/2, 0, 1/2, -1/2, 0,
    0, 1/2, 0, in that order, and occupy 9 x 4 = 36 bytes. *)
Theorem geometry_upload (env : Env) (fuel : nat) :
  glfwCreateWindow_result env <> NULL ->
  gladLoadGLLoader_result env <> 0 ->
  filter is_buffer_call (calls (world (main env fuel init))) =
    [ Api.glGenBuffers 1;
      Api.glBindBuffer GL_ARRAY_BUFFER (glGenBuffers_name env);
      Api.glBufferData GL_ARRAY_BUFFER 36 verticies GL_STATIC_DRAW ]
  /\ map F32.value verticies =
       [ Some (-1, 2); Some (-1, 2); Some (0, 1);
         Some (1, 2);  Some (-1, 2); Some (0, 1);
         Some (0, 1);  Some (1, 2);  Some (0, 1) ]
  /\ sizeof_floats verticies = 36
  /\ flat_map F32.bytes verticies =
       [ 0; 0; 0; 0xBF;  0; 0; 0; 0xBF;  0; 0; 0; 0;
         0; 0; 0; 0x3F;  0; 0; 0; 0xBF;  0; 0; 0; 0;
         0; 0; 0; 0;     0; 0; 0; 0x3F;  0; 0; 0; 0 ]
  /\ List.length (flat_map F32.bytes verticies) = 36%nat.
Proof.
  intros Hw Hl. split; [|repeat split; vm_compute; reflexivity].
  rewrite main_running_filter by kind_facts.
  apply setup_buffer_calls.
Qed.

Lemma geometry_upload_witness :
  glfwCreateWindow_result sample_env <> NULL
  /\ gladLoadGLLoader_result sample_env <> 0
  /\ filter is_buffer_call (calls (world (main sample_env 8 init))) =
       [ Api.glGenBuffers 1;
         Api.glBindBuffer GL_ARRAY_BUFFER 1;
         Api.glBufferData GL_ARRAY_BUFFER 36 verticies GL_STATIC_DRAW ].
Proof.
  assert (Hw : glfwCreateWindow_result sample_env <> NULL)
    by (vm_compute; discriminate).
  assert (Hl : gladLoadGLLoader_result sample_env <> 0)
    by (vm_compute; discriminate).
  split; [exact Hw | split; [exact Hl |]].
  exact (proj1 (geometry_upload sample_env 8 Hw Hl)).
Defined.




(** C3. No check of the fragment shader or of the link.  A driver that
    answers differently about anything but the vertex shader's compile
    status and log (in particular one that fails the fragment shader's
    compilation or the program's link) leaves the run unchanged: same
    calls, same output, same result.  From the creation of the fragment
    shader on, a run contains no status or log query at all, and no run
    contains a query on a program object. *)
Theorem fragment_and_link_unchecked
        (env : Env) (fuel : nat)
        (siv : Z -> Z -> Z) (log : Z -> string) (piv : Z -> Z -> Z) :
  let vertexShader := glCreateShader_name env GL_VERTEX_SHADER in
  siv vertexShader GL_COMPILE_STATUS = shader_iv env vertexShader GL_COMPILE_STATUS ->
  log vertexShader = shader_info_log env vertexShader ->
  main (with_driver siv log piv env) fuel init = main env fuel init
  /\ (forall before after : list Api.Call,
        calls (world (main env fuel init)) =
          (before ++ Api.glCreateShader GL_FRAGMENT_SHADER :: after)%list ->
        filter is_query after = [])
  /\ filter is_program_query (calls (world (main env fuel init))) = [].
Proof.
  intros vertexShader Hsiv Hlog. split; [|split].
  - subst vertexShader.
    apply main_same_answers. constructor; try reflexivity.
    + unfold vertex_status, status_answer.
      cbn [with_driver is_shader shader_iv glCreateShader_name stale_success].
      now rewrite Hsiv.
    + unfold printed_log.
      cbn [with_driver is_shader shader_info_log glCreateShader_name stale_infoLog].
      now rewrite Hlog.
  - intros before after E.
    assert (Hnone : forall l,
               l = (before ++ Api.glCreateShader GL_FRAGMENT_SHADER :: after)%list ->
               filter creates_fragment_shader l <> []).
    { intros l -> H. apply filter_nil_middle in H. discriminate. }
    revert E. main_paths env fuel; intros E.
    + now apply Hnone in E.
    + now apply Hnone in E.
    + destruct (main_running_frames env fuel Hn Hg) as (frames & Hcalls & _).
      cbv zeta in Hcalls. rewrite Hcalls, setup_calls_split in E.
      rewrite <- app_assoc in E. cbn [app] in E.
      apply (unique_split creates_fragment_shader) in E; [| reflexivity | |].
      * subst after. rewrite !filter_app.
        rewrite frames_without by kind_facts.
        destruct (result (main env fuel init)); reflexivity.
      * unfold diagnostic_calls. destruct (vertex_status env =? 0); reflexivity.
      * rewrite !filter_app.
        rewrite frames_without by kind_facts.
        destruct (result (main env fuel init)); reflexivity.
  - main_paths env fuel; try reflexivity.
    rewrite main_running_filter by kind_facts.
    unfold setup_calls, diagnostic_calls.
    destruct (vertex_status env =? 0); reflexivity.
Qed.

Lemma fragment_and_link_unchecked_witness :
  failing_siv 1 GL_COMPILE_STATUS = shader_iv sample_env 1 GL_COMPILE_STATUS
  /\ shader_iv sample_env 2 GL_COMPILE_STATUS = 1
  /\ failing_siv 2 GL_COMPILE_STATUS = 0
  /\ main (with_driver failing_siv (shader_info_log sample_env)
             failing_piv sample_env) 8 init
     = main sample_env 8 init.
Proof.
  split; [reflexivity | split; [reflexivity | split; [reflexivity|]]].
  exact (proj1 (fragment_and_link_unchecked sample_env 8
                  failing_siv (shader_info_log sample_env) failing_piv
                  eq_refl eq_refl)).
Defined.

(** C4. Nothing is drawn.  No run of [main], whatever its length, contains
    a [glUseProgram] or a draw call.  The calls a run of the render loop
    adds are a sequence of frames (and the final loop condition); no frame
    contains a [glUseProgram] or a draw call, and the OpenGL calls of a
    frame are the clear colour, the clear, and after them only the viewport
    updates the resize callback makes while events are polled. *)
Theorem render_loop_never_draws (env : Env) (fuel : nat) :
  filter uses_or_draws (calls (world (main env fuel init))) = []
  /\ (forall (window : Z) (w : World),
        exists frames : list (bool * list (Z * Z)),
          calls (world (render_loop env fuel window w)) =
            (calls w ++ List.concat (map (frame_calls window) frames)
               ++ last_check window (result (render_loop env fuel window w)))%list)
  /\ (forall (window : Z) (f : bool * list (Z * Z)),
        filter uses_or_draws (frame_calls window f) = []
        /\ filter is_gl (frame_calls window f) =
             Api.glClearColor (F32.lit 2 1) (F32.lit 3 1) (F32.lit 3 1) (F32.lit 10 1)
               :: Api.glClear GL_COLOR_BUFFER_BIT
               :: map viewport_call (snd f)).
Proof.
  split; [|split].
  - main_paths env fuel; try reflexivity.
    rewrite main_running_filter by kind_facts.
    apply setup_uses_or_draws.
  - intros window w.
    destruct (render_loop_frames env window fuel w) as (frames & Hcalls & _).
    exists frames. exact Hcalls.
  - intros window [esc sizes]. split.
    + rewrite filter_frame_calls by kind_facts. now destruct esc.
    + unfold frame_calls, body_calls; cbn [fst snd].
      destruct esc; cbn; f_equal; f_equal;
        induction sizes as [|s l IH]; cbn; congruence.
Qed.

(** C5. Close on Escape.  If [glfwGetKey] reports Escape as pressed when
    [processInput] runs, [processInput] requests the close and leaves the
    window's close flag set; the loop body then runs to its end, and the
    loop condition evaluated next ends the loop: no further frame
    follows. *)
Theorem escape_closes_window (env : Env) (window : Z) (w : World) (n : nat) :
  result (glfwGetKey window GLFW_KEY_ESCAPE w) = Some GLFW_PRESS ->
  shouldClose (win (world (processInput window w))) = true
  /\ In (Api.glfwSetWindowShouldClose window 1)
        (calls (world (processInput window w)))
  /\ exists w' : World,
       (loop_body env window ;; render_loop env (S n) window)%prog w
         = (Some tt, w')
       /\ calls w' =
            (calls w
               ++ body_calls window true (dispatched (win w) (events env (polled w)))
               ++ [Api.glfwWindowShouldClose window])%list
       /\ shouldClose (win w') = true.
Proof.
  intros Hkey.
  assert (He : escape_down (win w) = true).
  { unfold glfwGetKey, result in Hkey; cbn in Hkey. unfold escape_down.
    destruct (existsb (Z.eqb GLFW_KEY_ESCAPE) (keysDown (win w)));
      [reflexivity | discriminate]. }
  rewrite processInput_run. unfold world; cbn [snd win calls].
  split; [now apply after_input_escape|]. split.
  - rewrite He. apply in_or_app. right. cbn. auto.
  - unfold bind. rewrite loop_body_run, He.
    assert (Hc : shouldClose
                   (after_frame (events env (polled w)) (win w)) = true)
      by (unfold after_frame;
          now apply after_events_keeps_close, after_input_escape).
    rewrite render_loop_closed by exact Hc.
    eexists; split; [reflexivity|]. unfold logged; cbn [calls win].
    split; [now rewrite <- app_assoc | exact Hc].
Qed.

Lemma escape_closes_window_witness :
  result (glfwGetKey 4096 GLFW_KEY_ESCAPE escape_held) = Some GLFW_PRESS
  /\ shouldClose (win (world (processInput 4096 escape_held))) = true.
Proof.
  split; [reflexivity|].
  exact (proj1 (escape_closes_window sample_env 4096 escape_held 0 eq_refl)).
Defined.

(** C6. The shape of a frame.  The calls a run of the render loop adds are
    a sequence of frames, then the loop condition that ended the run if it
    ended.  Each frame is: the loop condition; input processing (the
    Escape query, and the close request when Escape is down); the clear
    colour, with the binary32 values nearest to 0.2, 0.3, 0.3 and 1; the
    clear of the colour buffer; the buffer swap; the event poll, during
    which the resize callback sets the viewport for each size announced.
    So each of these occurs once per frame, with one colour throughout:
    swaps, polls, clears, clear colours and key queries are as many as
    frames.  A run cut short by the bound completed one frame per unit of
    the bound. *)
Theorem frame_structure (env : Env) (window : Z) (fuel : nat) (w : World) :
  exists frames : list (bool * list (Z * Z)),
    let r := render_loop env fuel window w in
    let added :=
      (List.concat
         (map (fun f : bool * list (Z * Z) =>
                 [ Api.glfwWindowShouldClose window;
                   Api.glfwGetKey window GLFW_KEY_ESCAPE ]
                 ++ (if fst f then [Api.glfwSetWindowShouldClose window 1] else [])
                 ++ [ Api.glClearColor (F32.lit 2 1) (F32.lit 3 1)
                                       (F32.lit 3 1) (F32.lit 10 1);
                      Api.glClear GL_COLOR_BUFFER_BIT;
                      Api.glfwSwapBuffers window;
                      Api.glfwPollEvents ]
                 ++ map viewport_call (snd f))
              frames)
         ++ last_check window (result r))%list in
    calls (world r) = (calls w ++ added)%list
    /\ count is_swap added = List.length frames
    /\ count is_poll added = List.length frames
    /\ count is_clear added = List.length frames
    /\ count is_clear_color added = List.length frames
    /\ count is_key_query added = List.length frames
    /\ (result r = None -> List.length frames = fuel)
    /\ F32.nearest_to 2 10 (F32.lit 2 1) = true
    /\ F32.nearest_to 3 10 (F32.lit 3 1) = true
    /\ F32.nearest_to 1 1 (F32.lit 10 1) = true.
Proof.
  destruct (render_loop_frames env window fuel w)
    as (frames & Hcalls & _ & _ & Hfuel & _).
  exists frames. cbv zeta in *.
  set (r := render_loop env fuel window w) in *.
  change (map _ frames) with (map (frame_calls window) frames).
  assert (Hcount : forall p,
             (forall s, p (viewport_call s) = false) ->
             p (Api.glfwWindowShouldClose window) = false ->
             (forall esc, count p (frame_calls window (esc, [])) = 1%nat) ->
             count p (List.concat (map (frame_calls window) frames)
                        ++ last_check window (result r)) = List.length frames).
  { intros p Hv Hc H1. rewrite count_app, count_frames by assumption.
    destruct (result r); unfold count; cbn; rewrite ?Hc; cbn; lia. }
  split; [exact Hcalls|].
  repeat (split; [apply Hcount; kind_facts |]).
  split; [exact Hfuel|].
  repeat split; vm_compute; reflexivity.
Qed.

(** C7. Exit status.  [main] returns -1 exactly when window creation gave
    no handle or the loader reported failure.  On the first path the output
    is the window-creation message, on the second the loader message, and
    on neither is the loop condition ever evaluated.  Otherwise a run either
    is still in the loop or has returned 0 with the close flag up; and it
    does return 0 once a close request has been polled, given a bound that
    lets the loop get there. *)
Theorem exit_status (env : Env) (fuel : nat) :
  let window := glfwCreateWindow_result env in
  let loaded := gladLoadGLLoader_result env in
  let r := main env fuel init in
  (result r = Some (-1) <-> window = NULL \/ loaded = 0)
  /\ (window = NULL ->
      stdout (world r) = ("Failed to create GLFW window" ++ LF)%string
      /\ count is_loop_check (calls (world r)) = 0%nat)
  /\ (window <> NULL -> loaded = 0 ->
      stdout (world r) = ("Failed to initialize GLAD" ++ LF)%string
      /\ count is_loop_check (calls (world r)) = 0%nat)
  /\ (window <> NULL -> loaded <> 0 ->
      result r = None
      \/ result r = Some 0 /\ shouldClose (win (world r)) = true)
  /\ (window <> NULL -> loaded <> 0 ->
      forall k : nat,
        In EvClose (events env k) -> (k + 2 <= fuel)%nat ->
        result r = Some 0).
Proof.
  intros window loaded r.
  assert (Hrun : window <> NULL -> loaded <> 0 ->
                 result r = None
                 \/ result r = Some 0 /\ shouldClose (win (world r)) = true).
  { intros Hw Hl.
    destruct (main_running_frames env fuel Hw Hl) as (frames & _ & _ & Hres).
    cbv zeta in Hres. fold r in Hres. tauto. }
  split; [|split; [|split; [|split]]].
  - split.
    + intros Hr.
      destruct (Z.eq_dec window NULL) as [Hw | Hw]; [now left|].
      destruct (Z.eq_dec loaded 0) as [Hl | Hl]; [now right|].
      destruct (Hrun Hw Hl) as [H | [H _]]; congruence.
    + intros [Hw | Hl].
      * unfold r. now rewrite (main_no_window env fuel Hw).
      * destruct (Z.eq_dec window NULL) as [Hw | Hw]; unfold r.
        -- now rewrite (main_no_window env fuel Hw).
        -- now rewrite (main_no_loader env fuel Hw Hl).
  - intros Hw. unfold r. rewrite (main_no_window env fuel Hw).
    split; reflexivity.
  - intros Hw Hl. unfold r. rewrite (main_no_loader env fuel Hw Hl).
    split; reflexivity.
  - exact Hrun.
  - intros Hw Hl k Hin Hk. unfold r. rewrite (main_running env fuel Hw Hl).
    pose proof (render_loop_terminates env (glfwCreateWindow_result env)
                  fuel (ready env) k) as Hterm.
    cbn [ready polled] in Hterm.
    specialize (Hterm (Nat.le_0_l k) Hin).
    rewrite Nat.sub_0_r in Hterm. specialize (Hterm Hk).
    unfold bind, result in *.
    destruct (render_loop env fuel (glfwCreateWindow_result env) (ready env))
      as [[[]|] w']; cbn in *; [reflexivity | discriminate].
Qed.

Lemma exit_status_witness :
  result (main (with_window NULL sample_env) 8 init) = Some (-1)
  /\ result (main (with_loader 0 sample_env) 8 init) = Some (-1)
  /\ result (main quiet_env 8 init) = Some 0.
Proof.
  split; [|split].
  - apply (proj1 (exit_status (with_window NULL sample_env) 8)).
    left. reflexivity.
  - apply (proj1 (exit_status (with_loader 0 sample_env) 8)).
    right. reflexivity.
  - refine (proj2 (proj2 (proj2 (proj2 (exit_status quiet_env 8))))
              _ _ 2%nat _ _).
    + vm_compute; discriminate.
    + vm_compute; discriminate.
    + cbn. auto.
    + cbn. lia.
Defined.

(** C8. Teardown on the failure paths.  When the loader fails, [main]
    returns -1 without any call to [glfwTerminate]; when window creation
    fails, [glfwTerminate] is called once, as the last call before [main]
    returns -1. *)
Theorem teardown_on_failure (env : Env) (fuel : nat) :
  let r := main env fuel init in
  (glfwCreateWindow_result env <> NULL ->
   gladLoadGLLoader_result env = 0 ->
   result r = Some (-1)
   /\ count is_terminate (calls (world r)) = 0%nat)
  /\ (glfwCreateWindow_result env = NULL ->
      result r = Some (-1)
      /\ count is_terminate (calls (world r)) = 1%nat
      /\ exists before : list Api.Call,
           calls (world r) = (before ++ [Api.glfwTerminate])%list).
Proof.
  intros r; split.
  - intros Hw Hl. unfold r. rewrite (main_no_loader env fuel Hw Hl).
    split; reflexivity.
  - intros Hw. unfold r. rewrite (main_no_window env fuel Hw).
    split; [reflexivity | split; [reflexivity|]].
    exists bootstrap_calls. reflexivity.
Qed.

Lemma teardown_on_failure_witness :
  count is_terminate
    (calls (world (main (with_loader 0 sample_env) 8 init))) = 0%nat
  /\ count is_terminate
       (calls (world (main (with_window NULL sample_env) 8 init))) = 1%nat.
Proof.
  split.
  - refine (proj2 (proj1 (teardown_on_failure (with_loader 0 sample_env) 8) _ _)).
    + vm_compute; discriminate.
    + reflexivity.
  - refine (proj1 (proj2 (proj2 (teardown_on_failure
                                   (with_window NULL sample_env) 8) _))).
    reflexivity.
Defined.

(** C9. The fragment shader's source.  Its first line is
    [#verson 460 core]: the directive is spelt [#verson], and the text
    does not begin with [#version], unlike the vertex shader's.  It is
    this text, unaltered, that is handed to [glShaderSource]. *)
Theorem fragment_source_first_line :
  first_line fragmentShaderSource = "#verson 460 core"%string
  /\ prefix "#verson" fragmentShaderSource = true
  /\ prefix "#version" fragmentShaderSource = false
  /\ first_line vertexShaderSource = "#version 460 core"%string
  /\ (forall env : Env,
        nth_error (link_calls env) 1 =
          Some (Api.glShaderSource (glCreateShader_name env GL_FRAGMENT_SHADER)
                  1 [fragmentShaderSource] NULL)).
Proof. repeat split. Qed.

(** C10. [glfwInit]'s result is not looked at.  Whatever [glfwInit]
    returns, the run is the same in calls, output and result; every run
    starts with [glfwInit], the three window hints and the window
    creation. *)
Theorem glfwInit_result_ignored (env : Env) (r : Z) (fuel : nat) :
  main (with_init r env) fuel init = main env fuel init
  /\ firstn 5 (calls (world (main env fuel init))) =
       [ Api.glfwInit;
         Api.glfwWindowHint GLFW_CONTEXT_VERSION_MAJOR 4;
         Api.glfwWindowHint GLFW_CONTEXT_VERSION_MINOR 6;
         Api.glfwWindowHint GLFW_OPENGL_PROFILE GLFW_OPENGL_CORE_PROFILE;
         Api.glfwCreateWindow 800 600 "LearnOpenGL" NULL NULL ].
Proof.
  split.
  - apply main_same_answers. constructor; reflexivity.
  - main_paths env fuel; try reflexivity.
    destruct (main_running_frames env fuel Hn Hg) as (frames & Hcalls & _).
    cbv zeta in Hcalls. now rewrite Hcalls.
Qed.

(** ** A run, computed

    In [quiet_env] the shaders compile, nothing is printed, and the window
    is closed at the third poll: three frames, then the teardown. *)
Example quiet_run :
  result (main quiet_env 8 init) = Some 0
  /\ stdout (world (main quiet_env 8 init)) = EmptyString
  /\ skipn (List.length (setup_calls quiet_env))
           (calls (world (main quiet_env 8 init))) =
       (frame_calls 4096 (false, []) ++ frame_calls 4096 (false, [])
          ++ frame_calls 4096 (false, [])
          ++ [Api.glfwWindowShouldClose 4096; Api.glfwTerminate])%list.
Proof. repeat split. Qed.

(** * Further properties of the program *)

(** ** Key state and close flag across events *)

Lemma existsb_eqb_filter (a key : Z) (l : list Z) :
  existsb (Z.eqb a) (filter (fun k => negb (k =? key)) l) =
    if a =? key then false else existsb (Z.eqb a) l.
Proof.
  induction l as [|x l IH]; cbn; [now destruct (a =? key)|].
  destruct (x =? key) eqn:Ex; cbn; rewrite IH.
  - apply Z.eqb_eq in Ex. subst x.
    destruct (a =? key); reflexivity.
  - destruct (a =? key) eqn:Ea; [|reflexivity].
    apply Z.eqb_eq in Ea. subst a.
    rewrite Z.eqb_sym, Ex. reflexivity.
Qed.

Lemma escape_down_after_event (x : Window) (ev : Event) :
  escape_down (after_event x ev) =
    match ev with
    | EvKey key pressed =>
        if key =? GLFW_KEY_ESCAPE then pressed else escape_down x
    | _ => escape_down x
    end.
Proof.
  destruct ev as [key pressed | width height | ]; try reflexivity.
  unfold escape_down; cbn [after_event keysDown].
  rewrite (Z.eqb_sym key).
  destruct pressed; cbn [existsb]; rewrite existsb_eqb_filter;
    destruct (GLFW_KEY_ESCAPE =? key); reflexivity.
Qed.

Lemma escape_down_after_events (evs : list Event) : forall x : Window,
  escape_down (after_events evs x) = escape_after evs (escape_down x).
Proof.
  induction evs as [|ev evs IH]; intros x; [reflexivity|].
  unfold after_events, escape_after in *; cbn [fold_left].
  rewrite IH, escape_down_after_event. destruct ev; reflexivity.
Qed.

(** A press of Escape that is the last word of a batch on that key
    leaves the key down whatever its state was. *)
Lemma escape_after_any (evs : list Event) : forall d : bool,
  escape_after evs false = true -> escape_after evs d = true.
Proof.
  unfold escape_after.
  induction evs as [|ev evs IH]; intros d; cbn [fold_left];
    [discriminate|].
  destruct ev as [key pressed | width height | ]; try apply IH.
  destruct (key =? GLFW_KEY_ESCAPE); [trivial | apply IH].
Qed.

Lemma escape_after_quiet (evs : list Event) :
  quiet evs = true -> escape_after evs false = false.
Proof.
  unfold quiet, escape_after.
  induction evs as [|ev evs IH]; cbn [forallb fold_left]; [reflexivity|].
  intros H. apply andb_prop in H. destruct H as [Hev Hq].
  destruct ev as [key pressed | width height | ]; cbn in Hev;
    try discriminate; try now apply IH.
  destruct (key =? GLFW_KEY_ESCAPE); [|now apply IH].
  destruct pressed; [discriminate | now apply IH].
Qed.

Lemma after_events_quiet_close (evs : list Event) : forall x : Window,
  quiet evs = true ->
  shouldClose (after_events evs x) = shouldClose x.
Proof.
  unfold quiet, after_events.
  induction evs as [|ev evs IH]; intros x H; cbn [forallb fold_left] in *;
    [reflexivity|].
  apply andb_prop in H. destruct H as [Hev Hq].
  rewrite (IH _ Hq). destruct ev; [reflexivity | reflexivity | discriminate].
Qed.

Lemma after_events_callback (evs : list Event) : forall x : Window,
  framebufferSizeCallback (after_events evs x) = framebufferSizeCallback x.
Proof.
  unfold after_events.
  induction evs as [|ev evs IH]; intros x; cbn [fold_left]; [reflexivity|].
  now rewrite IH, after_event_callback.
Qed.

Lemma after_input_idle (x : Window) :
  escape_down x = false -> after_input x = x.
Proof. unfold after_input. now intros ->. Qed.

(** A frame with a quiet poll, started with the flag clear and Escape up,
    ends with the flag clear and Escape up. *)
Lemma after_frame_quiet (evs : list Event) (x : Window) :
  quiet evs = true ->
  shouldClose x = false -> escape_down x = false ->
  shouldClose (after_frame evs x) = false
  /\ escape_down (after_frame evs x) = false.
Proof.
  intros Hq Hc He. unfold after_frame. rewrite (after_input_idle x He).
  split.
  - now rewrite after_events_quiet_close.
  - rewrite escape_down_after_events, He. now apply escape_after_quiet.
Qed.

(** X1. What [processInput] leaves alone.  Whatever the key state,
    [processInput] returns, writes nothing, changes neither the cached key
    states, the registered callback, the window handle nor the poll count,
    and never lowers a close flag that is up.  When Escape is not down it
    changes nothing at all in the window and its only call is the query of
    Escape: other keys are not looked at. *)
Theorem processInput_preserves (window : Z) (w : World) :
  let r := processInput window w in
  result r = Some tt
  /\ stdout (world r) = stdout w
  /\ polled (world r) = polled w
  /\ keysDown (win (world r)) = keysDown (win w)
  /\ framebufferSizeCallback (win (world r)) = framebufferSizeCallback (win w)
  /\ handle (win (world r)) = handle (win w)
  /\ (shouldClose (win w) = true -> shouldClose (win (world r)) = true)
  /\ (existsb (Z.eqb GLFW_KEY_ESCAPE) (keysDown (win w)) = false ->
      world r = logged [Api.glfwGetKey window GLFW_KEY_ESCAPE] w).
Proof.
  cbv zeta. rewrite processInput_run. unfold result, world, logged.
  cbn [fst snd stdout polled win calls].
  unfold after_input. fold (escape_down (win w)).
  destruct (escape_down (win w)); cbn; repeat split; auto; discriminate.
Qed.

(** ** How long the loop runs *)

Section LoopLength.

Variable env : Env.
Variable window : Z.

(** The world after one more frame. *)
Lemma render_loop_next (n : nat) (w : World) :
  shouldClose (win w) = false ->
  render_loop env (S n) window w =
    render_loop env n window
      {| calls := (calls w ++ frame_calls window
                     (escape_down (win w),
                      dispatched (win w) (events env (polled w))))%list;
         stdout := stdout w;
         win := after_frame (events env (polled w)) (win w);
         polled := S (polled w) |}.
Proof.
  intros Hc. rewrite render_loop_unfold, Hc, loop_body_run.
  unfold world, logged, frame_calls.
  cbn [snd fst calls stdout win polled]. now rewrite <- app_assoc.
Qed.

(** Swaps are counted by the poll counter. *)
Lemma render_loop_swaps (fuel : nat) (w : World) :
  let r := render_loop env fuel window w in
  (count is_swap (calls (world r)) + polled w
   = count is_swap (calls w) + polled (world r))%nat.
Proof.
  destruct (render_loop_frames env window fuel w)
    as (frames & Hcalls & _ & Hpolled & _).
  cbv zeta in *. rewrite Hcalls, Hpolled, !count_app.
  rewrite count_frames by kind_facts.
  destruct (result (render_loop env fuel window w)); cbn; lia.
Qed.

(** While every poll is quiet the loop goes on. *)
Lemma render_loop_quiet (fuel : nat) : forall w : World,
  shouldClose (win w) = false ->
  escape_down (win w) = false ->
  (forall j, (polled w <= j < polled w + fuel)%nat ->
             quiet (events env j) = true) ->
  result (render_loop env fuel window w) = None.
Proof.
  induction fuel as [|n IH]; intros w Hc He Hq; [reflexivity|].
  rewrite (render_loop_next n w Hc).
  destruct (after_frame_quiet (events env (polled w)) (win w))
    as [Hc' He']; try assumption.
  { apply Hq. lia. }
  apply IH; cbn [win polled]; try assumption.
  intros j Hj. apply Hq. lia.
Qed.

(** Quiet polls, then a close request at poll [k]: the loop ends right
    after that poll. *)
Lemma render_loop_until_close (fuel : nat) : forall (w : World) (k : nat),
  shouldClose (win w) = false ->
  escape_down (win w) = false ->
  (polled w <= k)%nat ->
  (forall j, (polled w <= j < k)%nat -> quiet (events env j) = true) ->
  In EvClose (events env k) ->
  (k - polled w + 2 <= fuel)%nat ->
  result (render_loop env fuel window w) = Some tt
  /\ polled (world (render_loop env fuel window w)) = S k.
Proof.
  induction fuel as [|n IH]; intros w k Hc He Hk Hq Hin Hfuel; [lia|].
  rewrite (render_loop_next n w Hc).
  destruct (Nat.eq_dec (polled w) k) as [Heq | Hne].
  - destruct n as [|m]; [lia|].
    rewrite render_loop_closed.
    + unfold world, logged; cbn. now rewrite Heq.
    + cbn [win]. unfold after_frame. apply after_events_close_request.
      now rewrite Heq.
  - destruct (after_frame_quiet (events env (polled w)) (win w))
      as [Hc' He']; try assumption.
    { apply Hq. lia. }
    apply IH; cbn [win polled]; try assumption; try lia.
    intros j Hj. apply Hq. lia.
Qed.

(** With Escape down and the flag clear, the frame that starts is the
    last. *)
Lemma render_loop_escape (n : nat) (w : World) :
  shouldClose (win w) = false ->
  escape_down (win w) = true ->
  result (render_loop env (S (S n)) window w) = Some tt
  /\ polled (world (render_loop env (S (S n)) window w)) = S (polled w).
Proof.
  intros Hc He. rewrite (render_loop_next (S n) w Hc).
  rewrite render_loop_closed; [split; reflexivity|].
  cbn [win]. unfold after_frame.
  now apply after_events_keeps_close, after_input_escape.
Qed.

(** A poll that leaves Escape down ends the loop at most two conditions
    later. *)
Lemma render_loop_until_escape (fuel : nat) : forall (w : World) (k : nat),
  (polled w <= k)%nat ->
  escape_after (events env k) false = true ->
  (k - polled w + 3 <= fuel)%nat ->
  result (render_loop env fuel window w) = Some tt
  /\ (polled (world (render_loop env fuel window w)) <= k + 2)%nat.
Proof.
  induction fuel as [|n IH]; intros w k Hk Hesc Hfuel; [lia|].
  destruct (shouldClose (win w)) eqn:Hc.
  { rewrite render_loop_closed by exact Hc.
    unfold world, logged; cbn. split; [reflexivity | lia]. }
  rewrite (render_loop_next n w Hc).
  destruct (Nat.eq_dec (polled w) k) as [Heq | Hne].
  - destruct n as [|[|m]]; try lia.
    set (w1 := {| calls := _; stdout := _; win := _; polled := _ |}).
    destruct (shouldClose (win w1)) eqn:Hc1.
    { rewrite render_loop_closed by exact Hc1.
      unfold world, logged, w1; cbn. split; [reflexivity | lia]. }
    destruct (render_loop_escape m w1 Hc1) as [Hres Hp].
    { unfold w1; cbn [win]. unfold after_frame.
      rewrite escape_down_after_events, Heq. now apply escape_after_any. }
    rewrite Hres, Hp. unfold w1; cbn [polled]. split; [reflexivity | lia].
  - destruct (IH {| calls := (calls w ++ frame_calls window
                                (escape_down (win w),
                                 dispatched (win w) (events env (polled w))))%list;
                    stdout := stdout w;
                    win := after_frame (events env (polled w)) (win w);
                    polled := S (polled w) |} k) as [Hres Hp];
      cbn [polled]; try assumption; try lia.
    split; assumption.
Qed.

End LoopLength.

(** What [shutdown] adds to a run of the loop. *)
Lemma main_running_result (env : Env) (fuel : nat) :
  glfwCreateWindow_result env <> NULL ->
  gladLoadGLLoader_result env <> 0 ->
  let loop := render_loop env fuel (glfwCreateWindow_result env) (ready env) in
  let r := main env fuel init in
  result r = match result loop with Some _ => Some 0 | None => None end
  /\ calls (world r) =
       (calls (world loop)
          ++ match result loop with Some _ => [Api.glfwTerminate] | None => [] end)%list
  /\ stdout (world r) = stdout (world loop)
  /\ win (world r) = win (world loop)
  /\ polled (world r) = polled (world loop).
Proof.
  intros Hw Hl. cbv zeta. rewrite (main_running env fuel Hw Hl).
  unfold bind, shutdown.
  destruct (render_loop env fuel (glfwCreateWindow_result env) (ready env))
    as [[[]|] w']; unfold result, world; cbn; rewrite ?app_nil_r;
    repeat split.
Qed.

(** X2. No exit without cause.  In a run that reaches the render loop, if
    none of the first [fuel] polls delivers a close request or a press of
    Escape, then after [fuel] loop conditions [main] has not returned, has
    swapped buffers [fuel] times and has not called [glfwTerminate]: the
    loop has no other way out. *)
Theorem no_exit_without_cause (env : Env) (fuel : nat) :
  glfwCreateWindow_result env <> NULL ->
  gladLoadGLLoader_result env <> 0 ->
  (forall k, (k < fuel)%nat -> quiet (events env k) = true) ->
  result (main env fuel init) = None
  /\ count is_swap (calls (world (main env fuel init))) = fuel
  /\ count is_terminate (calls (world (main env fuel init))) = 0%nat.
Proof.
  intros Hw Hl Hq.
  assert (Hnone : result (main env fuel init) = None).
  { destruct (main_running_result env fuel Hw Hl) as (Hres & _).
    cbv zeta in Hres. rewrite Hres, render_loop_quiet; try reflexivity.
    intros j Hj. apply Hq. cbn in Hj. lia. }
  destruct (main_running_frames env fuel Hw Hl) as (frames & Hcalls & _ & Hres).
  cbv zeta in Hcalls, Hres. rewrite Hnone in Hcalls.
  destruct Hres as [[_ Hlen] | [H _]]; [|congruence].
  split; [exact Hnone|].
  rewrite Hcalls; cbn [closing]; rewrite app_nil_r. split.
  - rewrite count_app, count_frames, Hlen by kind_facts.
    unfold setup_calls, diagnostic_calls.
    destruct (vertex_status env =? 0); reflexivity.
  - unfold count. rewrite filter_app, frames_without by kind_facts.
    unfold setup_calls, diagnostic_calls.
    destruct (vertex_status env =? 0); reflexivity.
Qed.

Lemma no_exit_without_cause_witness :
  glfwCreateWindow_result quiet_env <> NULL
  /\ gladLoadGLLoader_result quiet_env <> 0
  /\ (forall k, (k < 2)%nat -> quiet (events quiet_env k) = true)
  /\ result (main quiet_env 2 init) = None.
Proof.
  assert (Hw : glfwCreateWindow_result quiet_env <> NULL)
    by (vm_compute; discriminate).
  assert (Hl : gladLoadGLLoader_result quiet_env <> 0)
    by (vm_compute; discriminate).
  assert (Hq : forall k, (k < 2)%nat -> quiet (events quiet_env k) = true).
  { intros [|[|k]] Hk; [reflexivity | reflexivity | lia]. }
  split; [exact Hw | split; [exact Hl | split; [exact Hq |]]].
  exact (proj1 (no_exit_without_cause quiet_env 2 Hw Hl Hq)).
Defined.

(** Swaps in a run of [main] that reached the loop: one per poll. *)
Lemma main_running_swaps (env : Env) (fuel : nat) :
  glfwCreateWindow_result env <> NULL ->
  gladLoadGLLoader_result env <> 0 ->
  count is_swap (calls (world (main env fuel init))) =
    polled (world (main env fuel init)).
Proof.
  intros Hw Hl.
  destruct (main_running_result env fuel Hw Hl) as (_ & Hcalls & _ & _ & Hp).
  cbv zeta in Hcalls, Hp. rewrite Hcalls, Hp, count_app.
  pose proof (render_loop_swaps env (glfwCreateWindow_result env) fuel (ready env))
    as Hs.
  cbv zeta in Hs.
  assert (H0 : count is_swap (calls (ready env)) = 0%nat).
  { unfold ready, setup_calls, diagnostic_calls; cbn [calls].
    destruct (vertex_status env =? 0); reflexivity. }
  rewrite H0 in Hs. cbn [ready polled] in Hs.
  destruct (result (render_loop env fuel (glfwCreateWindow_result env) (ready env)));
    cbn; lia.
Qed.

(** X3. One frame per poll up to the close request.  In a run that
    reaches the render loop, if the polls before the [k]-th deliver neither
    a close request nor a press of Escape and the [k]-th delivers a close
    request, then, given a bound that lets the loop get there, [main]
    returns 0 after exactly [k + 1] frames: [k + 1] buffer swaps and
    [k + 1] polls, none skipped and none added. *)
Theorem close_request_frame_count (env : Env) (fuel k : nat) :
  glfwCreateWindow_result env <> NULL ->
  gladLoadGLLoader_result env <> 0 ->
  (forall j, (j < k)%nat -> quiet (events env j) = true) ->
  In EvClose (events env k) ->
  (k + 2 <= fuel)%nat ->
  result (main env fuel init) = Some 0
  /\ count is_swap (calls (world (main env fuel init))) = S k
  /\ polled (world (main env fuel init)) = S k.
Proof.
  intros Hw Hl Hq Hin Hfuel.
  destruct (render_loop_until_close env (glfwCreateWindow_result env)
              fuel (ready env) k) as [Hres Hp]; try reflexivity;
    try assumption.
  { cbn. lia. }
  { intros j Hj. apply Hq. lia. }
  { cbn. lia. }
  destruct (main_running_result env fuel Hw Hl) as (Hr & _ & _ & _ & Hp').
  cbv zeta in Hr, Hp'. rewrite Hres in Hr.
  rewrite main_running_swaps by assumption.
  rewrite Hp', Hp. auto.
Qed.

Lemma close_request_frame_count_witness :
  (forall j, (j < 2)%nat -> quiet (events quiet_env j) = true)
  /\ In EvClose (events quiet_env 2)
  /\ result (main quiet_env 8 init) = Some 0
  /\ count is_swap (calls (world (main quiet_env 8 init))) = 3%nat.
Proof.
  assert (Hw : glfwCreateWindow_result quiet_env <> NULL)
    by (vm_compute; discriminate).
  assert (Hl : gladLoadGLLoader_result quiet_env <> 0)
    by (vm_compute; discriminate).
  assert (Hq : forall j, (j < 2)%nat -> quiet (events quiet_env j) = true).
  { intros [|[|j]] Hj; [reflexivity | reflexivity | lia]. }
  assert (Hin : In EvClose (events quiet_env 2)) by (cbn; auto).
  assert (Hfuel : (2 + 2 <= 8)%nat) by lia.
  pose proof (close_request_frame_count quiet_env 8 2 Hw Hl Hq Hin Hfuel)
    as (Hres & Hswaps & _).
  split; [exact Hq | split; [exact Hin | split; [exact Hres | exact Hswaps]]].
Defined.

(** X4. Escape ends the run.  In a run that reaches the render loop, if
    some poll [k] leaves Escape down (its last Escape event is a press),
    then, given a bound that lets the loop get two conditions beyond that
    poll, [main] returns 0 with the close flag up and no poll after the
    one of the next frame: the next [processInput] requests the close and
    the condition after it ends the loop. *)
Theorem escape_event_ends_run (env : Env) (fuel k : nat) :
  glfwCreateWindow_result env <> NULL ->
  gladLoadGLLoader_result env <> 0 ->
  escape_after (events env k) false = true ->
  (k + 3 <= fuel)%nat ->
  result (main env fuel init) = Some 0
  /\ shouldClose (win (world (main env fuel init))) = true
  /\ (polled (world (main env fuel init)) <= k + 2)%nat.
Proof.
  intros Hw Hl Hesc Hfuel.
  pose proof (render_loop_until_escape env (glfwCreateWindow_result env)
                fuel (ready env) k) as Hloop.
  cbn [ready polled] in Hloop.
  specialize (Hloop (Nat.le_0_l k) Hesc).
  rewrite Nat.sub_0_r in Hloop. destruct (Hloop Hfuel) as [Hres Hp].
  destruct (main_running_result env fuel Hw Hl) as (Hr & _ & _ & Hwin & Hp').
  cbv zeta in Hr, Hwin, Hp'. rewrite Hres in Hr.
  destruct (render_loop_frames env (glfwCreateWindow_result env) fuel (ready env))
    as (frames & _ & _ & _ & _ & Hclose).
  cbv zeta in Hclose.
  split; [exact Hr|]. split.
  - rewrite Hwin. apply Hclose. congruence.
  - now rewrite Hp'.
Qed.

Lemma escape_event_ends_run_witness :
  escape_after (events escape_env 0) false = true
  /\ result (main escape_env 5 init) = Some 0
  /\ (polled (world (main escape_env 5 init)) <= 2)%nat.
Proof.
  assert (Hw : glfwCreateWindow_result escape_env <> NULL)
    by (vm_compute; discriminate).
  assert (Hl : gladLoadGLLoader_result escape_env <> 0)
    by (vm_compute; discriminate).
  assert (Hesc : escape_after (events escape_env 0) false = true)
    by reflexivity.
  assert (Hfuel : (0 + 3 <= 5)%nat) by lia.
  pose proof (escape_event_ends_run escape_env 5 0 Hw Hl Hesc Hfuel)
    as (Hres & _ & Hp).
  split; [exact Hesc | split; [exact Hres | exact Hp]].
Defined.

(** ** The resize callback at work *)

Lemma frame_viewports (window : Z) (esc : bool) (sizes : list (Z * Z)) :
  filter is_viewport (frame_calls window (esc, sizes)) = map viewport_call sizes.
Proof.
  unfold frame_calls, body_calls; cbn [fst snd].
  rewrite !app_comm_cons, !app_assoc, filter_app.
  replace (filter is_viewport _) with (@nil Api.Call) by now destruct esc.
  cbn [app]. induction sizes as [|s l IH]; cbn; [reflexivity | now rewrite IH].
Qed.

Lemma resizes_between_S (env : Env) (from n : nat) :
  resizes_between env from (S n) =
    (resizes (events env from) ++ resizes_between env (S from) n)%list.
Proof. reflexivity. Qed.

Lemma render_loop_viewports (env : Env) (window : Z) (fuel : nat) :
  forall w : World,
    framebufferSizeCallback (win w) <> None ->
    let r := render_loop env fuel window w in
    (polled w <= polled (world r))%nat
    /\ filter is_viewport (calls (world r)) =
         (filter is_viewport (calls w)
            ++ map viewport_call
                 (resizes_between env (polled w)
                    (polled (world r) - polled w)))%list.
Proof.
  induction fuel as [|n IH]; intros w Hcb; cbv zeta.
  - unfold world; cbn. rewrite Nat.sub_diag. cbn. now rewrite app_nil_r.
  - destruct (shouldClose (win w)) eqn:Hc.
    + rewrite render_loop_closed by exact Hc. unfold world, logged; cbn.
      rewrite Nat.sub_diag, filter_app. cbn. auto.
    + rewrite (render_loop_next env window n w Hc).
      set (w1 := {| calls := _; stdout := _; win := _; polled := _ |}).
      destruct (IH w1) as [Hle Hv].
      { unfold w1; cbn [win]. unfold after_frame.
        now rewrite after_events_callback, after_input_callback. }
      cbv zeta in Hv. rewrite Hv.
      assert (Hp1 : polled w1 = S (polled w)) by reflexivity.
      assert (Hc1 : calls w1 =
                      (calls w ++ frame_calls window
                         (escape_down (win w),
                          dispatched (win w) (events env (polled w))))%list)
        by reflexivity.
      rewrite Hp1 in Hle |- *. rewrite Hc1.
      split; [lia|].
      replace (polled (world (render_loop env n window w1)) - polled w)%nat
        with (S (polled (world (render_loop env n window w1)) - S (polled w)))
        by lia.
      rewrite resizes_between_S, map_app, filter_app, frame_viewports.
      unfold dispatched.
      destruct (framebufferSizeCallback (win w)); [|congruence].
      now rewrite <- app_assoc.
Qed.

(** X5. One viewport update per resize.  In a run that reaches the render
    loop, the [glViewport] calls of the whole run are, in order, exactly
    one per framebuffer-size event delivered by the polls made so far, each
    with origin (0, 0) and the width and height of its event unchanged
    (zero or negative sizes included); no other viewport call is made, in
    particular none before the first poll. *)
Theorem viewport_per_resize (env : Env) (fuel : nat) :
  glfwCreateWindow_result env <> NULL ->
  gladLoadGLLoader_result env <> 0 ->
  let r := main env fuel init in
  filter is_viewport (calls (world r)) =
    map (fun size : Z * Z => Api.glViewport 0 0 (fst size) (snd size))
        (flat_map (fun k => resizes (events env k)) (seq 0 (polled (world r)))).
Proof.
  intros Hw Hl. cbv zeta.
  destruct (main_running_result env fuel Hw Hl) as (_ & Hcalls & _ & _ & Hp).
  cbv zeta in Hcalls, Hp. rewrite Hcalls, Hp, filter_app.
  destruct (render_loop_viewports env (glfwCreateWindow_result env) fuel (ready env))
    as [_ Hv]; [discriminate|].
  cbv zeta in Hv. rewrite Hv. cbn [ready polled calls].
  rewrite Nat.sub_0_r.
  replace (filter is_viewport (setup_calls env)) with (@nil Api.Call).
  - destruct (result (render_loop env fuel (glfwCreateWindow_result env) (ready env)));
      cbn [filter is_viewport app]; now rewrite app_nil_r.
  - unfold setup_calls, diagnostic_calls.
    destruct (vertex_status env =? 0); reflexivity.
Qed.

Lemma viewport_per_resize_witness :
  glfwCreateWindow_result escape_env <> NULL
  /\ gladLoadGLLoader_result escape_env <> 0
  /\ filter is_viewport (calls (world (main escape_env 5 init))) =
       [Api.glViewport 0 0 640 480; Api.glViewport 0 0 0 (-1)].
Proof.
  assert (Hw : glfwCreateWindow_result escape_env <> NULL)
    by (vm_compute; discriminate).
  assert (Hl : gladLoadGLLoader_result escape_env <> 0)
    by (vm_compute; discriminate).
  split; [exact Hw | split; [exact Hl |]].
  pose proof (viewport_per_resize escape_env 5 Hw Hl) as H.
  assert (P : polled (world (main escape_env 5 init)) = 2%nat)
    by (vm_compute; reflexivity).
  cbv zeta in H. rewrite P in H. exact H.
Defined.

(** ** Teardown, ordering and handles *)

(** X6. Teardown on the normal path.  In a run that reaches the render
    loop, [glfwTerminate] is not called while the loop runs, and is called
    exactly once when [main] returns: it is the last call, right after the
    loop condition that came out false. *)
Theorem terminate_once_on_return (env : Env) (fuel : nat) :
  glfwCreateWindow_result env <> NULL ->
  gladLoadGLLoader_result env <> 0 ->
  let r := main env fuel init in
  count is_terminate (calls (world r)) =
    match result r with Some _ => 1%nat | None => 0%nat end
  /\ match result r with
     | Some _ =>
         exists before : list Api.Call,
           calls (world r) =
             (before ++ [Api.glfwWindowShouldClose (glfwCreateWindow_result env);
                         Api.glfwTerminate])%list
     | None => True
     end.
Proof.
  intros Hw Hl. cbv zeta.
  destruct (main_running_frames env fuel Hw Hl) as (frames & Hcalls & _).
  cbv zeta in Hcalls. rewrite Hcalls. split.
  - unfold count. rewrite !filter_app, frames_without by kind_facts.
    unfold setup_calls, diagnostic_calls.
    destruct (vertex_status env =? 0), (result (main env fuel init));
      reflexivity.
  - destruct (result (main env fuel init)); [|exact I].
    eexists. cbn [closing]. rewrite app_assoc. reflexivity.
Qed.

Lemma terminate_once_on_return_witness :
  glfwCreateWindow_result quiet_env <> NULL
  /\ gladLoadGLLoader_result quiet_env <> 0
  /\ count is_terminate (calls (world (main quiet_env 8 init))) = 1%nat
  /\ count is_terminate (calls (world (main quiet_env 2 init))) = 0%nat.
Proof.
  assert (Hw : glfwCreateWindow_result quiet_env <> NULL)
    by (vm_compute; discriminate).
  assert (Hl : gladLoadGLLoader_result quiet_env <> 0)
    by (vm_compute; discriminate).
  split; [exact Hw | split; [exact Hl |]].
  destruct (terminate_once_on_return quiet_env 8 Hw Hl) as [H8 _].
  destruct (terminate_once_on_return quiet_env 2 Hw Hl) as [H2 _].
  assert (R8 : result (main quiet_env 8 init) = Some 0)
    by (vm_compute; reflexivity).
  assert (R2 : result (main quiet_env 2 init) = None)
    by (vm_compute; reflexivity).
  rewrite R8 in H8. rewrite R2 in H2. split; [exact H8 | exact H2].
Defined.

(** A list that starts with calls of no kind [p] has its first call of
    kind [p] after them. *)
Lemma prefix_before_first {A : Type} (p : A -> bool) (c : A) :
  p c = true ->
  forall (P before after rest : list A),
    filter p P = [] ->
    (before ++ c :: after)%list = (P ++ rest)%list ->
    exists mid, before = (P ++ mid)%list.
Proof.
  intros Hc. induction P as [|x P IH]; intros before after rest HP E.
  - exists before. reflexivity.
  - cbn in HP. destruct (p x) eqn:Hx; [discriminate|].
    destruct before as [|y before]; cbn in E.
    + assert (c = x) by congruence. congruence.
    + assert (Hy : y = x) by congruence. subst y.
      destruct (IH before after rest HP) as [mid ->]; [congruence|].
      exists mid. reflexivity.
Qed.

(** X7. No OpenGL call before the loader.  Whenever a run contains a call
    to an OpenGL entry point, the loader had returned success, and both
    [glfwMakeContextCurrent] on the created window and the call to
    [gladLoadGLLoader] come earlier in the run.  On the two failure paths
    no OpenGL entry point is called at all. *)
Theorem gl_calls_follow_loader
        (env : Env) (fuel : nat) (before after : list Api.Call) (c : Api.Call) :
  calls (world (main env fuel init)) = (before ++ c :: after)%list ->
  is_gl c = true ->
  glfwCreateWindow_result env <> NULL
  /\ gladLoadGLLoader_result env <> 0
  /\ In (Api.glfwMakeContextCurrent (glfwCreateWindow_result env)) before
  /\ In (Api.gladLoadGLLoader glfwGetProcAddress_addr) before.
Proof.
  intros E Hc.
  assert (Hnone : forall l,
             l = (before ++ c :: after)%list -> filter is_gl l <> []).
  { intros l -> H. apply filter_nil_middle in H. congruence. }
  revert E. main_paths env fuel; intros E.
  - now apply Hnone in E.
  - now apply Hnone in E.
  - split; [exact Hn | split; [exact Hg|]].
    destruct (main_running_frames env fuel Hn Hg) as (frames & Hcalls & _).
    cbv zeta in Hcalls. rewrite Hcalls in E. unfold setup_calls in E.
    rewrite <- !app_assoc in E. rewrite (app_assoc bootstrap_calls) in E.
    symmetry in E.
    apply (prefix_before_first is_gl c Hc) in E; [|reflexivity].
    destruct E as [mid ->].
    split; apply in_or_app; left; cbn;
      repeat (try (left; reflexivity); right).
Qed.

Lemma gl_calls_follow_loader_witness :
  calls (world (main quiet_env 2 init)) =
    (firstn 8 (calls (world (main quiet_env 2 init)))
       ++ Api.glGenBuffers 1
       :: skipn 9 (calls (world (main quiet_env 2 init))))%list
  /\ is_gl (Api.glGenBuffers 1) = true
  /\ In (Api.gladLoadGLLoader glfwGetProcAddress_addr)
        (firstn 8 (calls (world (main quiet_env 2 init)))).
Proof.
  assert (E : calls (world (main quiet_env 2 init)) =
                (firstn 8 (calls (world (main quiet_env 2 init)))
                   ++ Api.glGenBuffers 1
                   :: skipn 9 (calls (world (main quiet_env 2 init))))%list)
    by (vm_compute; reflexivity).
  split; [exact E | split; [reflexivity|]].
  exact (proj2 (proj2 (proj2 (gl_calls_follow_loader quiet_env 2 _ _ _ E eq_refl)))).
Defined.

(** Evaluating [on_other_window] over calls made on the window itself. *)
Ltac own_window :=
  repeat (progress (cbn [fst snd app map filter on_other_window window_arg
                        negb viewport_call closing];
                    rewrite ?Z.eqb_refl)).

(** X8. The window handle.  Every GLFW call of a run that takes a window
    is made on the handle [glfwCreateWindow] returned, the calls of the
    render loop and of [processInput] included; and when that handle is
    NULL no call that takes a window is made at all. *)
Theorem window_calls_use_created_handle (env : Env) (fuel : nat) :
  filter (on_other_window (glfwCreateWindow_result env))
         (calls (world (main env fuel init))) = []
  /\ (glfwCreateWindow_result env = NULL ->
      filter takes_window (calls (world (main env fuel init))) = []).
Proof.
  split.
  - main_paths env fuel.
    + reflexivity.
    + unfold world, bootstrap_calls, context_calls; cbn [snd calls].
      now own_window.
    + rewrite main_running_filter; try assumption.
      * unfold setup_calls, bootstrap_calls, context_calls, upload_calls,
          vertex_calls, diagnostic_calls, link_calls.
        destruct (vertex_status env =? 0); now own_window.
      * reflexivity.
      * intros esc. unfold frame_calls, body_calls.
        destruct esc; now own_window.
      * now own_window.
      * reflexivity.
  - intros Hw. now rewrite (main_no_window env fuel Hw).
Qed.

Lemma window_calls_use_created_handle_witness :
  glfwCreateWindow_result (with_window NULL sample_env) = NULL
  /\ filter takes_window
       (calls (world (main (with_window NULL sample_env) 8 init))) = [].
Proof.
  split; [reflexivity|].
  destruct (window_calls_use_created_handle (with_window NULL sample_env) 8)
    as [_ H].
  exact (H eq_refl).
Defined.
